(** * Cluster load profiles: a shallow embedding of [scripts/cluster_profiles.py]

    The pipeline reads half-hourly household consumption records, filters
    them, derives a weekend flag and a half-hour slot, averages per
    (cluster, weekend flag, slot) and pivots the averages into a wide table.

    Conventions of the embedding.
    - A data frame is the list of its rows, in row order.
    - A timestamp is the integer number of nanoseconds since 1970-01-01T00:00,
      as pandas stores it; [Timedelta_days 1] is 86400 * 10^9.
    - [consumption_kwh] holds the value of a cell as a rational. The tables
      are built with exact means ([mean], [grouped]), which fixes their
      shape: keys, rows, columns and missing cells. The numbers pandas
      computes are binary64, and the long form is given a second time with
      them ([group_mean], [grouped_float64]); what is said about the value
      of an average is said of that form.
    - Cluster ids are text, as in the household list of the LCL data
      ([Acorn_grouped]); the order in which clusters are listed is the order
      of [String.leb] and is not the order pandas gives a cluster column of
      numbers.
    - A timestamp carries no time zone. The frames of [load_data] are
      UTC-aware and those of [load_lcl_dataset] are naive; [filter_data] is
      only ever applied to the former, by [main].
    - An optional command-line string that the code only tests for truthiness
      and then parses ([start_date], [end_date]) is an [option] of the parsed
      value: [None] stands for both [None] and the empty string.
    - Python exceptions are the constructors of [exn]; a function that may
      raise returns a [result]. *)

From Stdlib Require Import ZArith QArith Qreduction Qcanon String Ascii Lia.
From Stdlib Require SpecFloat.
From stdpp Require Import base decidable option list strings sorting gmap sets.

#[local] Set Warnings "-clear-no-such-hyp".

Local Open Scope string_scope.
Local Open Scope list_scope.
Local Open Scope Z_scope.

(* ------------------------------------------------------------------ *)
(** ** Timestamps *)

Module Time.

Definition ns_per_minute : Z := 60 * 1000000000.
Definition ns_per_hour : Z := 60 * ns_per_minute.
Definition ns_per_day : Z := 24 * ns_per_hour.

(** [pd.Timedelta(days=n)]. *)
Definition Timedelta_days (n : Z) : Z := n * ns_per_day.

(** The [.dt] accessors used by the script. *)
Definition dt_minute (t : Z) : Z := (t / ns_per_minute) mod 60.
Definition dt_hour (t : Z) : Z := (t / ns_per_hour) mod 24.
(** Monday is 0 and Sunday is 6; 1970-01-01 was a Thursday. *)
Definition dt_dayofweek (t : Z) : Z := (t / ns_per_day + 3) mod 7.

Inductive weekday := Monday | Tuesday | Wednesday | Thursday | Friday | Saturday | Sunday.

Definition weekday_of_index (i : Z) : weekday :=
  match i with
  | 0 => Monday | 1 => Tuesday | 2 => Wednesday | 3 => Thursday
  | 4 => Friday | 5 => Saturday | _ => Sunday
  end.

Definition weekday_of (t : Z) : weekday := weekday_of_index (dt_dayofweek t).

(** Days since the epoch of a proleptic Gregorian date; used to write
    timestamps the way the command line and the CSV files spell them. *)
Definition days_from_civil (y m d : Z) : Z :=
  let y' := if m <=? 2 then y - 1 else y in
  let era := y' / 400 in
  let yoe := y' - era * 400 in
  let mp := (m + 9) mod 12 in
  let doy := (153 * mp + 2) / 5 + d - 1 in
  let doe := yoe * 365 + yoe / 4 - yoe / 100 + doy in
  era * 146097 + doe - 719468.

(** [pd.to_datetime("YYYY-MM-DD")]: midnight of that date. *)
Definition date (y m d : Z) : Z := days_from_civil y m d * ns_per_day.

(** [pd.to_datetime("YYYY-MM-DD hh:mm")]. *)
Definition datetime (y m d hh mm : Z) : Z :=
  date y m d + hh * ns_per_hour + mm * ns_per_minute.

End Time.

(* ------------------------------------------------------------------ *)
(** ** Exceptions and results *)

Inductive exn :=
  (** [ValueError(f"Missing columns in {path}: {missing}")]: the table that
      was read and the set that is printed. *)
  | ValueError_missing_columns (table : string) (missing : gset string)
  (** pandas' [sample] refuses a negative [n]. *)
  | ValueError_negative_sample
  (** pandas' [sample] refuses [n] above the population without replacement. *)
  | ValueError_sample_too_large
  (** [group["weekend_kwh"]] on a frame without that column. *)
  | KeyError (column : string)
  (** [pd.read_csv] on a path that does not exist. *)
  | FileNotFoundError (path : string)
  | SystemExit (msg : string).

Inductive result (A : Type) :=
  | Ok (a : A)
  | Raise (e : exn).
Arguments Ok {A} a.
Arguments Raise {A} e.

Definition bind {A B} (r : result A) (k : A → result B) : result B :=
  match r with
  | Ok a => k a
  | Raise e => Raise e
  end.

#[global] Instance result_bind : MBind result := λ A B k r, bind r k.
#[global] Instance result_ret : MRet result := @Ok.

(* ------------------------------------------------------------------ *)
(** ** The canonical record set *)

(** A row of the record set. The timestamp is the instant as pandas stores
    it, without the time zone that the column may carry. *)
Record ConsumptionRecord := mkRecord {
  household_id : string;
  cluster_id : string;
  timestamp : Z;
  consumption_kwh : Q
}.

Abbreviation DataFrame := (list ConsumptionRecord).

(** [series.isin(values)] on text. *)
Definition isin (values : list string) (x : string) : bool :=
  bool_decide (x ∈ values).

(** [series.drop_duplicates()]: the first occurrence of each value, in order. *)
Fixpoint drop_duplicates_from (seen : list string) (l : list string) : list string :=
  match l with
  | [] => []
  | x :: l' =>
      if isin seen x then drop_duplicates_from seen l'
      else x :: drop_duplicates_from (x :: seen) l'
  end.

Definition drop_duplicates (l : list string) : list string :=
  drop_duplicates_from [] l.

(* ------------------------------------------------------------------ *)
(** ** Seeded sampling

    [obj.sample(n=n, random_state=42)] draws [n] positions out of
    [len(obj)] without replacement from a generator seeded with 42, and takes
    the rows at these positions. The positions depend on the length and on
    [n] only. The generator itself is not modelled: a [Sampler] is any choice
    of positions that is a draw without replacement. *)

Class Sampler := {
  choice : nat → nat → list nat;
  choice_length : ∀ len n, (n ≤ len)%nat → length (choice len n) = n;
  choice_NoDup : ∀ len n, NoDup (choice len n);
  choice_bound : ∀ len n i, i ∈ choice len n → (i < len)%nat
}.

(** The sampler that draws the first [n] positions. *)
Definition prefix_choice (len n : nat) : list nat := seq 0 (Nat.min n len).

(** The sampler that draws the last [n] positions, last first. *)
Definition suffix_choice (len n : nat) : list nat :=
  (λ i, len - 1 - i)%nat <$> seq 0 (Nat.min n len).

Lemma prefix_choice_length len n : (n ≤ len)%nat → length (prefix_choice len n) = n.
Proof. intros. unfold prefix_choice. rewrite length_seq. lia. Qed.

Lemma prefix_choice_NoDup len n : NoDup (prefix_choice len n).
Proof. apply NoDup_seq. Qed.

Lemma prefix_choice_bound len n i : i ∈ prefix_choice len n → (i < len)%nat.
Proof. unfold prefix_choice. rewrite elem_of_seq. lia. Qed.

Lemma suffix_choice_length len n : (n ≤ len)%nat → length (suffix_choice len n) = n.
Proof. intros. unfold suffix_choice. rewrite length_fmap, length_seq. lia. Qed.

Lemma suffix_choice_NoDup len n : NoDup (suffix_choice len n).
Proof.
  apply NoDup_fmap_2_strong; [|apply NoDup_seq].
  intros i j Hi Hj. apply elem_of_seq in Hi, Hj. lia.
Qed.

Lemma suffix_choice_bound len n i : i ∈ suffix_choice len n → (i < len)%nat.
Proof.
  intros Hi. apply list_elem_of_fmap in Hi as (j & -> & Hj).
  apply elem_of_seq in Hj. lia.
Qed.

Definition prefix_sampler : Sampler :=
  Build_Sampler prefix_choice prefix_choice_length prefix_choice_NoDup prefix_choice_bound.

Definition suffix_sampler : Sampler :=
  Build_Sampler suffix_choice suffix_choice_length suffix_choice_NoDup suffix_choice_bound.

Section Sampling.
Context `{Sampler}.

(** [obj.sample(n=n, random_state=42)] on the rows [l]. *)
Definition sample {A} (l : list A) (n : Z) : result (list A) :=
  if n <? 0 then Raise ValueError_negative_sample
  else if Z.of_nat (length l) <? n then Raise ValueError_sample_too_large
  else Ok (omap (λ i, l !! i) (choice (length l) (Z.to_nat n))).

End Sampling.

(* ------------------------------------------------------------------ *)
(** ** Filter: [filter_data] *)

Section Filter.
Context `{Sampler}.

Definition len {A} (l : list A) : Z := Z.of_nat (length l).

Definition filter_data (df : DataFrame)
    (sample_households : option Z) (clusters : option (list string))
    (start_date end_date : option Z) : result DataFrame :=
  let df :=
    match clusters with
    | Some (c :: cs) => filter (λ r, isin (c :: cs) (cluster_id r)) df
    | _ => df
    end in
  let df :=
    match start_date with
    | Some s => filter (λ r, s ≤ timestamp r) df
    | None => df
    end in
  let df :=
    match end_date with
    | Some e => filter (λ r, timestamp r ≤ e + Time.Timedelta_days 1) df
    | None => df
    end in
  match sample_households with
  | Some n =>
      if n =? 0 then Ok df
      else
        let households := drop_duplicates (household_id <$> df) in
        sampled ← sample households (Z.min n (len households));
        Ok (filter (λ r, isin sampled (household_id r)) df)
  | None => Ok df
  end.

End Filter.

(* ------------------------------------------------------------------ *)
(** ** FeatureDeriver: [add_time_features] *)

Record AugmentedRecord := mkAugmented {
  base : ConsumptionRecord;
  is_weekend : bool;
  slot : Z
}.

Definition add_time_features (df : DataFrame) : list AugmentedRecord :=
  let df :=
    (λ r, mkAugmented r
            (bool_decide (5 ≤ Time.dt_dayofweek (timestamp r)))
            (Time.dt_hour (timestamp r) * 2 + Time.dt_minute (timestamp r) / 30))
    <$> df in
  filter (λ a, Time.dt_minute (timestamp (base a)) ∈ [0; 30]) df.

(* ------------------------------------------------------------------ *)
(** ** Aggregator and Reshaper: [compute_profiles] *)

(** The distinct values of a column in sorted order, the way pandas lists
    the keys of a [groupby] and the labels of a pivot. *)
Definition sorted_unique `{Countable A} (le : relation A)
    `{∀ x y, Decision (le x y)} (l : list A) : list A :=
  merge_sort le (elements (list_to_set l : gset A)).

Definition str_le (s1 s2 : string) : Prop := String.leb s1 s2 = true.
Definition bool_le (b1 b2 : bool) : Prop := implb b1 b2 = true.

#[global] Instance str_le_dec s1 s2 : Decision (str_le s1 s2).
Proof. unfold str_le. apply _. Defined.
#[global] Instance bool_le_dec b1 b2 : Decision (bool_le b1 b2).
Proof. unfold bool_le. apply _. Defined.

(** Lexicographic order of a pair of keys. *)
Definition lex_le {A B} (leA : relation A) (leB : relation B) : relation (A * B) :=
  λ p q, (leA p.1 q.1 ∧ p.1 ≠ q.1) ∨ (p.1 = q.1 ∧ leB p.2 q.2).

#[global] Instance lex_le_dec {A B} `{EqDecision A} (leA : relation A) (leB : relation B)
  `{∀ x y, Decision (leA x y)} `{∀ x y, Decision (leB x y)} p q :
  Decision (lex_le leA leB p q).
Proof. unfold lex_le. apply _. Defined.

(** The [groupby] key [(cluster_id, is_weekend, slot)]. *)
Abbreviation GroupKey := (string * bool * Z)%type.

Definition group_key (a : AugmentedRecord) : GroupKey :=
  (cluster_id (base a), is_weekend a, slot a).

Definition group_key_le : relation GroupKey := lex_le (lex_le str_le bool_le) Z.le.

(** [sum] and [mean] of a column of values. *)
Definition Qsum (l : list Q) : Q := foldr Qplus 0%Q l.

Definition mean (l : list Q) : Q :=
  Qred (Qsum l / inject_Z (Z.of_nat (length l))).

(** A row of the long form. *)
Record ProfilePoint := mkPoint {
  point_cluster_id : string;
  point_is_weekend : bool;
  point_slot : Z;
  avg_consumption_kwh : Q
}.

Definition point_key (p : ProfilePoint) : GroupKey :=
  (point_cluster_id p, point_is_weekend p, point_slot p).

(** The members of the group of key [k]. *)
Definition group_members (df : list AugmentedRecord) (k : GroupKey) : list AugmentedRecord :=
  filter (λ a, group_key a = k) df.

(** [df.groupby(["cluster_id", "is_weekend", "slot"])["consumption_kwh"]
       .mean().reset_index().rename(...)]. *)
Definition grouped (df : list AugmentedRecord) : list ProfilePoint :=
  (λ k : GroupKey,
     mkPoint k.1.1 k.1.2 k.2
       (mean ((consumption_kwh ∘ base) <$> group_members df k)))
  <$> sorted_unique group_key_le (group_key <$> df).

(** The index key [(cluster_id, slot)] of the pivot. *)
Abbreviation IndexKey := (string * Z)%type.

Definition index_key (p : ProfilePoint) : IndexKey := (point_cluster_id p, point_slot p).

Definition index_key_le : relation IndexKey := lex_le str_le Z.le.

(** A cell of the pivot: the mean of the long-form values at this index and
    column label, or NaN ([None]) when there is none. *)
Definition pivot_cell (long : list ProfilePoint) (i : IndexKey) (w : bool) : option Q :=
  match filter (λ p, index_key p = i ∧ point_is_weekend p = w) long with
  | [] => None
  | ps => Some (mean (avg_consumption_kwh <$> ps))
  end.

Record PivotRow := mkPivotRow {
  row_cluster_id : string;
  row_slot : Z;
  row_values : list (option Q)
}.

Definition row_key (r : PivotRow) : IndexKey := (row_cluster_id r, row_slot r).

(** A frame whose value columns are labelled by [L]. *)
Record Pivot (L : Type) := mkPivot {
  value_columns : list L;
  rows : list PivotRow
}.
Arguments mkPivot {L} _ _.
Arguments value_columns {L} _.
Arguments rows {L} _.

(** [grouped.pivot_table(index=["cluster_id", "slot"], columns="is_weekend",
       values="avg_consumption_kwh").reset_index()]: one column per observed
    label, one row per observed index key, both sorted. No mean is NaN here
    and each label is observed at some row, so the [dropna] passes of
    [pivot_table] remove nothing. *)
Definition pivot_table (long : list ProfilePoint) : Pivot bool :=
  let columns := sorted_unique bool_le (point_is_weekend <$> long) in
  let index := sorted_unique index_key_le (index_key <$> long) in
  mkPivot columns
    ((λ i : IndexKey, mkPivotRow i.1 i.2 ((λ w, pivot_cell long i w) <$> columns)) <$> index).

(** [pivot.rename(columns={False: "weekday_kwh", True: "weekend_kwh"})]. *)
Definition rename_columns (p : Pivot bool) : Pivot string :=
  mkPivot ((λ w : bool, if w then "weekend_kwh" else "weekday_kwh") <$> value_columns p)
          (rows p).

Definition ProfileTable : Type := Pivot string.

Definition compute_profiles (df : list AugmentedRecord) : ProfileTable :=
  rename_columns (pivot_table (grouped df)).

(** [row[column]] of a frame: [None] when the frame has no such column, and
    otherwise the value, itself [None] when it is missing (NaN). *)
Definition get_value (t : ProfileTable) (r : PivotRow) (column : string) : option (option Q) :=
  i ← list_find (λ c, c = column) (value_columns t);
  row_values r !! i.1.

(* ------------------------------------------------------------------ *)
(** ** The averages in binary64

    [consumption_kwh] is a float64 column and [.mean()] of a [groupby] is
    computed in float64: IEEE 754 binary64, rounding to nearest even, as
    [SpecFloat] of the standard library defines it for a precision of 53
    bits and a maximal exponent of 1024. *)

Definition float64 : Type := SpecFloat.spec_float.

Module F64.

Definition add : float64 → float64 → float64 := SpecFloat.SFadd 53 1024.
Definition sub : float64 → float64 → float64 := SpecFloat.SFsub 53 1024.
Definition div : float64 → float64 → float64 := SpecFloat.SFdiv 53 1024.

Definition zero : float64 := SpecFloat.S754_zero false.

Definition is_nan (x : float64) : bool :=
  match x with SpecFloat.S754_nan => true | _ => false end.

(** An integer as a float64, as C converts the count of a group. *)
Definition of_Z (z : Z) : float64 := SpecFloat.binary_normalize 53 1024 z 0 false.

(** The float64 of a cell whose value is [q]: the quotient of numerator and
    denominator. A decimal literal of up to 15 digits is read this way, its
    digits divided by a power of ten. *)
Definition of_Q (q : Q) : float64 := div (of_Z (Qnum q)) (of_Z (Zpos (Qden q))).

End F64.

(** One pass of the loop of pandas' [group_mean] over a value of the group:
    the running sum with Kahan's compensation,
    [y = val - compensation; t = sumx + y; compensation = t - sumx - y;
     if compensation != compensation: compensation = 0; sumx = t]. *)
Definition group_mean_step (acc : float64 * float64) (val : float64) : float64 * float64 :=
  let '(sumx, compensation) := acc in
  let y := F64.sub val compensation in
  let t := F64.add sumx y in
  let compensation := F64.sub (F64.sub t sumx) y in
  (t, if F64.is_nan compensation then F64.zero else compensation).

(** The compensated sum of the values of a group, taken in row order. *)
Definition group_sum (values : list float64) : float64 :=
  (foldl group_mean_step (F64.zero, F64.zero) values).1.

(** [sumx / count]; no value of the record set is NaN, so the count is the
    number of members. *)
Definition group_mean (values : list float64) : float64 :=
  F64.div (group_sum values) (F64.of_Z (len values)).

(** The sum a plain loop [s += val] gives, for comparison. *)
Definition plain_sum (values : list float64) : float64 :=
  foldl F64.add F64.zero values.

(** A row of the long form with the average as pandas holds it. *)
Record ProfilePoint64 := mkPoint64 {
  point64_cluster_id : string;
  point64_is_weekend : bool;
  point64_slot : Z;
  avg_consumption_kwh64 : float64
}.

Definition point64_key (p : ProfilePoint64) : GroupKey :=
  (point64_cluster_id p, point64_is_weekend p, point64_slot p).

(** [df.groupby(["cluster_id", "is_weekend", "slot"])["consumption_kwh"]
       .mean().reset_index().rename(...)] with its float64 averages: the
    keys of [grouped], each with the mean of the values of its members in
    the order of the rows. *)
Definition grouped_float64 (df : list AugmentedRecord) : list ProfilePoint64 :=
  (λ k : GroupKey,
     mkPoint64 k.1.1 k.1.2 k.2
       (group_mean ((F64.of_Q ∘ consumption_kwh ∘ base) <$> group_members df k)))
  <$> sorted_unique group_key_le (group_key <$> df).

(* ------------------------------------------------------------------ *)
(** ** SourceAdapter, generic variant: [load_data] *)

(** A row of the generic CSV as [pd.read_csv] returns it. A cell is [None]
    when it is empty (NaN); for [timestamp] also when
    [pd.to_datetime(..., utc=True, errors="coerce")] turns it into NaT. *)
Record RawRow := mkRaw {
  raw_household_id : option string;
  raw_cluster_id : option string;
  raw_timestamp : option Z;
  raw_consumption_kwh : option Q
}.

Record RawTable := mkRawTable {
  raw_columns : list string;
  raw_rows : list RawRow
}.

(** [required - set(df.columns)]. *)
Definition missing_columns (required : list string) (columns : list string) : gset string :=
  list_to_set required ∖ list_to_set columns.

(** [df.dropna(subset=[...])] followed by reading the four columns. *)
Definition dropna_raw (r : RawRow) : option ConsumptionRecord :=
  h ← raw_household_id r;
  c ← raw_cluster_id r;
  t ← raw_timestamp r;
  v ← raw_consumption_kwh r;
  Some (mkRecord h c t v).

Definition load_data (path : string) (df : RawTable) : result DataFrame :=
  let required := ["household_id"; "cluster_id"; "timestamp"; "consumption_kwh"] in
  let missing := missing_columns required (raw_columns df) in
  if decide (missing ≠ ∅) then Raise (ValueError_missing_columns path missing)
  else Ok (omap dropna_raw (raw_rows df)).

(* ------------------------------------------------------------------ *)
(** ** SourceAdapter, multi-block variant: [load_lcl_dataset] *)

(** A row of the household-info table: the cells of the columns [LCLid],
    [file] and the column named by [cluster_col] (as text). *)
Record InfoRow := mkInfo {
  LCLid : string;
  file : string;
  cluster : string
}.

Record InfoTable := mkInfoTable {
  info_columns : list string;
  info_rows : list InfoRow
}.

(** A row of a block file after the renaming of its columns. [block_tstp]
    and [block_energy] are what [pd.to_datetime] and [pd.to_numeric] with
    [errors="coerce"] return: [None] is NaT or NaN. *)
Record BlockRow := mkBlock {
  block_household_id : string;
  block_tstp : option Z;
  block_energy : option Q
}.

(** What a run prints and writes. *)
Inductive event :=
  | Print (line : string)
  (** [save_outputs]: the CSV and JSON files and the line it prints. *)
  | SaveProfiles (out_dir : string) (profiles : ProfileTable)
  (** [plt.savefig] of the plot of one cluster. *)
  | SavePlot (out_dir : string) (cluster_id : string).

(** [blocks_dir / f"{block_file}.csv"]. *)
Definition block_path (blocks_dir block_file : string) : string :=
  blocks_dir +:+ "/" +:+ block_file +:+ ".csv".

(** [info.groupby("file")["LCLid"].apply(set).to_dict()], as the list of
    its items in key order. *)
Definition blocks_of (info : list InfoRow) : list (string * list string) :=
  (λ f, (f, LCLid <$> filter (λ i, file i = f) info))
  <$> sorted_unique str_le (file <$> info).

(** The left join of a block row with the cluster assignment. *)
Definition merge_cluster (info : list InfoRow) (h : string) (t : Z) (v : Q) : DataFrame :=
  (λ i, mkRecord h (cluster i) t v) <$> filter (λ i, LCLid i = h) info.

(** The body of the loop over the blocks, from the rows read to the frame
    that is appended; [None] when the body ends in [continue]. *)
Definition block_frame (info : list InfoRow) (start_date end_date : option Z)
    (ids : list string) (df_block : list BlockRow) : option DataFrame :=
  let df_block := filter (λ b, isin ids (block_household_id b)) df_block in
  match df_block with
  | [] => None
  | _ =>
      let df_block :=
        omap (λ b, t ← block_tstp b; v ← block_energy b;
                   Some (block_household_id b, t, v)) df_block in
      let df_block :=
        mjoin ((λ '(h, t, v), merge_cluster info h t v) <$> df_block) in
      let df_block :=
        match start_date with
        | Some s => filter (λ r, s ≤ timestamp r) df_block
        | None => df_block
        end in
      let df_block :=
        match end_date with
        | Some e => filter (λ r, timestamp r ≤ e + Time.Timedelta_days 1) df_block
        | None => df_block
        end in
      Some df_block
  end.

(** The loop over [blocks.items()]: the lines printed and the frames
    appended, in order. [disk] maps the paths that exist to the rows of the
    file. *)
Fixpoint load_blocks (disk : gmap string (list BlockRow)) (blocks_dir : string)
    (info : list InfoRow) (start_date end_date : option Z)
    (blocks : list (string * list string)) : list event * list DataFrame :=
  match blocks with
  | [] => ([], [])
  | (block_file, ids) :: rest =>
      let '(out, frames) := load_blocks disk blocks_dir info start_date end_date rest in
      let path := block_path blocks_dir block_file in
      match disk !! path with
      | None => (Print ("Warning: block file missing: " +:+ path) :: out, frames)
      | Some df_block =>
          match block_frame info start_date end_date ids df_block with
          | None => (out, frames)
          | Some df_block => (out, df_block :: frames)
          end
      end
  end.

Section LoadLcl.
Context `{Sampler}.

(** The household list after the cluster filter and the sampling. *)
Definition select_households (info : InfoTable) (info_csv cluster_col : string)
    (sample_households : option Z) (clusters : option (list string))
    : result (list InfoRow) :=
  let required_info_cols := ["LCLid"; "file"; cluster_col] in
  let missing := missing_columns required_info_cols (info_columns info) in
  if decide (missing ≠ ∅) then Raise (ValueError_missing_columns info_csv missing)
  else
    let info :=
      match clusters with
      | Some (c :: cs) => filter (λ i, isin (c :: cs) (cluster i)) (info_rows info)
      | _ => info_rows info
      end in
    match info with
    | [] => Raise (SystemExit "No households remain after filtering by cluster.")
    | _ =>
        match sample_households with
        | Some n =>
            if n =? 0 then Ok info
            else sample info (Z.min n (len info))
        | None => Ok info
        end
    end.

Definition load_lcl_dataset (info_csv : string) (info : InfoTable)
    (blocks_dir : string) (disk : gmap string (list BlockRow))
    (cluster_col : string)
    (sample_households : option Z) (clusters : option (list string))
    (start_date end_date : option Z) : list event * result DataFrame :=
  match select_households info info_csv cluster_col sample_households clusters with
  | Raise e => ([], Raise e)
  | Ok info =>
      let '(out, frames) :=
        load_blocks disk blocks_dir info start_date end_date (blocks_of info) in
      match frames with
      | [] => (out, Raise (SystemExit "No data loaded from blocks; check paths and filters."))
      | _ => (out, Ok (mjoin frames))
      end
  end.

End LoadLcl.

(* ------------------------------------------------------------------ *)
(** ** Writer, plotter and [main] *)

(** [profiles[column]]: the column must exist. *)
Definition require_column (profiles : ProfileTable) (column : string) : result unit :=
  if decide (column ∈ value_columns profiles) then Ok () else Raise (KeyError column).

(** The loop of [plot_profiles] over the clusters of the table: each turn
    reads both value columns and saves one plot. [plt.savefig] is taken to
    succeed: a cluster id is taken to be a file name, which an id with a
    slash in it is not. *)
Fixpoint plot_clusters (profiles : ProfileTable) (out_dir : string)
    (cluster_ids : list string) : list event * result unit :=
  match cluster_ids with
  | [] => ([], Ok ())
  | c :: rest =>
      match require_column profiles "weekday_kwh" with
      | Raise e => ([], Raise e)
      | Ok _ =>
          match require_column profiles "weekend_kwh" with
          | Raise e => ([], Raise e)
          | Ok _ =>
              let '(out, r) := plot_clusters profiles out_dir rest in
              (SavePlot out_dir c :: out, r)
          end
      end
  end.

(** [profiles.groupby("cluster_id")] lists the clusters in the order of
    their ids, here the order of text. *)
Definition plot_profiles (profiles : ProfileTable) (out_dir : string)
    : list event * result unit :=
  plot_clusters profiles out_dir
    (sorted_unique str_le (row_cluster_id <$> rows profiles)).

(** [s.split(sep)] for a one-character separator. *)
Fixpoint split (sep : ascii) (s : string) : list string :=
  match s with
  | EmptyString => [EmptyString]
  | String c s' =>
      if decide (c = sep) then EmptyString :: split sep s'
      else match split sep s' with
           | x :: xs => String c x :: xs
           | [] => [String c EmptyString]
           end
  end.

Module Args.
(** The namespace that [parse_args] returns. *)
Record Namespace := mkArgs {
  consumption_csv : option string;
  sample_households : option Z;
  clusters : option string;
  start_date : option Z;
  end_date : option Z;
  output_dir : string;
  lcl_info_csv : option string;
  lcl_blocks_dir : option string;
  lcl_cluster_col : string
}.
End Args.

(** The files a run can read, by path. *)
Record World := mkWorld {
  csv_files : gmap string RawTable;
  info_files : gmap string InfoTable;
  block_files : gmap string (list BlockRow)
}.

Definition read_csv {A} (files : gmap string A) (path : string) : result A :=
  match files !! path with
  | Some df => Ok df
  | None => Raise (FileNotFoundError path)
  end.

Section Main.
Context `{Sampler}.

(** [args.clusters.split(",") if args.clusters else None]. *)
Definition parse_clusters (clusters : option string) : option (list string) :=
  match clusters with
  | Some (String c s) => Some (split "," (String c s))
  | _ => None
  end.

(** The first half of [main]: the record set handed to the check for
    emptiness. *)
Definition load (args : Args.Namespace) (w : World) : list event * result DataFrame :=
  let clusters := parse_clusters (Args.clusters args) in
  match Args.lcl_info_csv args, Args.lcl_blocks_dir args with
  | Some info_csv, Some blocks_dir =>
      match read_csv (info_files w) info_csv with
      | Raise e => ([], Raise e)
      | Ok info =>
          load_lcl_dataset info_csv info blocks_dir (block_files w)
            (Args.lcl_cluster_col args) (Args.sample_households args) clusters
            (Args.start_date args) (Args.end_date args)
      end
  | _, _ =>
      match Args.consumption_csv args with
      | None => ([], Raise (SystemExit "Provide --consumption-csv or LCL dataset args."))
      | Some path =>
          ([], raw ← read_csv (csv_files w) path;
               df ← load_data path raw;
               filter_data df (Args.sample_households args) clusters
                 (Args.start_date args) (Args.end_date args))
      end
  end.

Definition main (args : Args.Namespace) (w : World) : list event * result unit :=
  match load args w with
  | (out, Raise e) => (out, Raise e)
  | (out, Ok []) => (out, Raise (SystemExit "No data after filtering; check inputs."))
  | (out, Ok df) =>
      let df := add_time_features df in
      let profiles := compute_profiles df in
      let out := out ++ [SaveProfiles (Args.output_dir args) profiles] in
      match plot_profiles profiles (Args.output_dir args) with
      | (plots, Raise e) => (out ++ plots, Raise e)
      | (plots, Ok _) => (out ++ plots ++ [Print "Done."], Ok ())
      end
  end.

End Main.

(* ------------------------------------------------------------------ *)
(** ** The Filter as the specification words it

    Three predicates combined by conjunction, the sampling pool being the
    distinct households left by the cluster and date predicates. *)

Definition cluster_ok (clusters : option (list string)) (r : ConsumptionRecord) : Prop :=
  match clusters with
  | Some (c :: cs) => cluster_id r ∈ c :: cs
  | _ => True
  end.

Definition date_ok (start_date end_date : option Z) (r : ConsumptionRecord) : Prop :=
  match start_date with Some s => s ≤ timestamp r | None => True end
  ∧ match end_date with Some e => timestamp r ≤ e + Time.Timedelta_days 1 | None => True end.

#[global] Instance cluster_ok_dec clusters r : Decision (cluster_ok clusters r).
Proof. destruct clusters as [[|c cs]|]; simpl; apply _. Defined.

#[global] Instance date_ok_dec s e r : Decision (date_ok s e r).
Proof. unfold date_ok. destruct s, e; apply _. Defined.

(** The distinct households of a record set, in order of first appearance. *)
Definition households (df : DataFrame) : list string :=
  drop_duplicates (household_id <$> df).

Section FilterSpec.
Context `{Sampler}.

(** The households that the sampling step keeps out of [pool]. *)
Definition draw (sample_households : option Z) (pool : list string) : result (list string) :=
  match sample_households with
  | Some n => if n =? 0 then Ok pool else sample pool (Z.min n (len pool))
  | None => Ok pool
  end.

Definition filter_by_conjunction (df : DataFrame)
    (sample_households : option Z) (clusters : option (list string))
    (start_date end_date : option Z) : result DataFrame :=
  let remaining := filter (λ r, cluster_ok clusters r ∧ date_ok start_date end_date r) df in
  sampled ← draw sample_households (households remaining);
  Ok (filter (λ r, cluster_ok clusters r ∧ date_ok start_date end_date r
                   ∧ household_id r ∈ sampled) df).

End FilterSpec.

(** The record set that reaches the check for emptiness of [main] holds no
    record: either it is empty, or the multi-block adapter has already left
    because the cluster filter emptied the household list or because no
    block gave a frame. *)
Definition no_records (loaded : result DataFrame) : Prop :=
  loaded = Ok []
  ∨ loaded = Raise (SystemExit "No households remain after filtering by cluster.")
  ∨ loaded = Raise (SystemExit "No data loaded from blocks; check paths and filters.").

(** The event is a printed line: nothing was written to disk. *)
Definition is_print (ev : event) : Prop :=
  match ev with Print _ => True | _ => False end.

(* ------------------------------------------------------------------ *)
(** ** What the properties speak of *)

(** What [add_time_features] attaches to a record. *)
Definition features_ok (a : AugmentedRecord) : Prop :=
  let t := timestamp (base a) in
  slot a = Time.dt_hour t * 2 + Time.dt_minute t / 30
  ∧ 0 ≤ slot a ≤ 47
  ∧ (is_weekend a = true ↔ Time.weekday_of t = Time.Saturday ∨ Time.weekday_of t = Time.Sunday)
  ∧ (Time.dt_minute t = 0 ∨ Time.dt_minute t = 30).

(** The records that carry the cluster [c], the weekend flag [w] and the
    slot [s]: the members of the group of that key, in row order. *)
Definition records_of_key (df : list AugmentedRecord) (c : string) (w : bool) (s : Z)
    : list AugmentedRecord :=
  filter (λ a, cluster_id (base a) = c ∧ is_weekend a = w ∧ slot a = s) df.

Definition required_columns : list string :=
  ["household_id"; "cluster_id"; "timestamp"; "consumption_kwh"].

(** The line printed for a block whose file is missing. *)
Definition missing_block_warning (blocks_dir : string) (b : string * list string) : event :=
  Print ("Warning: block file missing: " +:+ block_path blocks_dir b.1).

(** The frame a block contributes, if any. *)
Definition frame_of_block (disk : gmap string (list BlockRow)) (blocks_dir : string)
    (info : list InfoRow) (start_date end_date : option Z)
    (b : string * list string) : option DataFrame :=
  df_block ← disk !! block_path blocks_dir b.1;
  block_frame info start_date end_date b.2 df_block.

(* ------------------------------------------------------------------ *)
(** ** Scenarios *)

(** Three households, two clusters. *)
Definition three_households : DataFrame :=
  [ mkRecord "H1" "A" (Time.datetime 2013 1 4 0 30) 1;
    mkRecord "H2" "A" (Time.datetime 2013 1 4 0 30) 2;
    mkRecord "H3" "B" (Time.datetime 2013 1 5 0 30) 3;
    mkRecord "H1" "A" (Time.datetime 2013 1 5 1 0) 3 ]%Q.

Definition three_listed : InfoTable :=
  mkInfoTable ["LCLid"; "stdorToU"; "Acorn"; "Acorn_grouped"; "file"]
    [ mkInfo "H1" "block_0" "A"; mkInfo "H2" "block_0" "A"; mkInfo "H3" "block_1" "B" ].

(** The household list in which the rows at positions [i] and [j] name the
    household H1 and the remaining row names H2. *)
Definition listed_twice (i j : nat) : InfoTable :=
  mkInfoTable ["LCLid"; "file"; "Acorn_grouped"]
    ((λ k, mkInfo (if decide (k = i ∨ k = j) then "H1" else "H2") "block_0" "A")
     <$> seq 0 3).

(** One record on Friday 2013-01-04 at 00:30. *)
Definition weekday_only : DataFrame :=
  [ mkRecord "H1" "A" (Time.datetime 2013 1 4 0 30) 1%Q ].

Definition weekday_only_args : Args.Namespace :=
  Args.mkArgs (Some "data.csv") None None None None "outputs/cluster_profiles"
    None None "Acorn_grouped".

Definition weekday_only_world : World :=
  mkWorld
    {[ "data.csv" :=
         mkRawTable ["household_id"; "cluster_id"; "timestamp"; "consumption_kwh"]
           [ mkRaw (Some "H1") (Some "A") (Some (Time.datetime 2013 1 4 0 30)) (Some 1%Q) ] ]}
    ∅ ∅.

Definition generic_world : World :=
  mkWorld
    {[ "data.csv" :=
         mkRawTable ["household_id"; "cluster_id"; "timestamp"; "consumption_kwh"]
           [ mkRaw (Some "H1") (Some "A") (Some (Time.datetime 2013 1 4 0 30)) (Some 1%Q);
             mkRaw (Some "H2") (Some "A") (Some (Time.datetime 2013 1 4 0 30)) (Some 2%Q);
             mkRaw (Some "H3") (Some "B") (Some (Time.datetime 2013 1 5 0 30)) (Some 3%Q);
             mkRaw (Some "H1") (Some "A") None (Some 3%Q) ] ]}
    ∅ ∅.

(** [--consumption-csv data.csv --clusters Z]. *)
Definition absent_cluster_args : Args.Namespace :=
  Args.mkArgs (Some "data.csv") None (Some "Z") None None "outputs/cluster_profiles"
    None None "Acorn_grouped".

Definition lcl_info : InfoTable :=
  mkInfoTable ["LCLid"; "stdorToU"; "Acorn"; "Acorn_grouped"; "file"]
    [ mkInfo "H1" "block_0" "A"; mkInfo "H2" "block_1" "B" ].

(** Block 0 exists and holds one record of 2013; block 1 is missing. *)
Definition one_block_world : World :=
  mkWorld ∅ {[ "info.csv" := lcl_info ]}
    {[ "blocks/block_0.csv" :=
         [ mkBlock "H1" (Some (Time.datetime 2013 1 1 0 0)) (Some 1%Q);
           mkBlock "H9" (Some (Time.datetime 2013 1 1 0 0)) (Some 1%Q) ] ]}.

(** No block exists. *)
Definition no_block_world : World :=
  mkWorld ∅ {[ "info.csv" := lcl_info ]} ∅.

(** [--lcl-info-csv info.csv --lcl-blocks-dir blocks], with or without
    [--start-date 2014-01-01] and [--clusters]. *)
Definition lcl_args (clusters : option string) (start_date : option Z) : Args.Namespace :=
  Args.mkArgs None None clusters start_date None "outputs/cluster_profiles"
    (Some "info.csv") (Some "blocks") "Acorn_grouped".

Definition two_records : list AugmentedRecord :=
  add_time_features
    [ mkRecord "H1" "A" (Time.datetime 2013 1 4 0 30) 1%Q;
      mkRecord "H2" "A" (Time.datetime 2013 1 4 0 30) 2%Q ].

(** Readings of cluster A at 00:30 on Friday 2013-01-04, one per household
    and value, in the order given. *)
Definition readings (l : list (string * Q)) : list AugmentedRecord :=
  add_time_features
    ((λ hv, mkRecord hv.1 "A" (Time.datetime 2013 1 4 0 30) hv.2) <$> l).

(** 0.1, 0.1 and 0.4 kWh, and the same three records with the last two
    exchanged. *)
Definition low_low_high : list AugmentedRecord :=
  readings [("H1", 1 # 10); ("H2", 1 # 10); ("H3", 4 # 10)]%Q.

Definition low_high_low : list AugmentedRecord :=
  readings [("H1", 1 # 10); ("H3", 4 # 10); ("H2", 1 # 10)]%Q.

(** Two readings of cluster B in the same slot, 0.7 and 0.2 kWh, in this
    order or exchanged. *)
Definition cluster_B_pair (exchanged : bool) : list AugmentedRecord :=
  add_time_features
    (if exchanged
     then [ mkRecord "H5" "B" (Time.datetime 2013 1 4 0 30) (2 # 10)%Q;
            mkRecord "H4" "B" (Time.datetime 2013 1 4 0 30) (7 # 10)%Q ]
     else [ mkRecord "H4" "B" (Time.datetime 2013 1 4 0 30) (7 # 10)%Q;
            mkRecord "H5" "B" (Time.datetime 2013 1 4 0 30) (2 # 10)%Q ]).

(** The three readings of cluster A followed by the two of cluster B, and
    the same five records with those of cluster B exchanged and moved to
    the front: the order within cluster A is kept. *)
Definition two_clusters (moved : bool) : list AugmentedRecord :=
  if moved then cluster_B_pair true ++ low_low_high
  else low_low_high ++ cluster_B_pair false.

(** 0.20000000000000004 and 0.19999999999999998, the float64 numbers next
    to 0.2 = 7205759403792794 * 2^-55. *)
Definition above_one_fifth : float64 := SpecFloat.S754_finite false 7205759403792795 (-55).
Definition below_one_fifth : float64 := SpecFloat.S754_finite false 7205759403792793 (-55).

(** One week of half-hourly records of 1 kWh for a household, from Monday
    2013-01-07 00:00. *)
Definition week_of (household cluster : string) : DataFrame :=
  (λ k : nat,
     mkRecord household cluster
       (Time.date 2013 1 7 + Z.of_nat k * 30 * Time.ns_per_minute) 1%Q)
  <$> seq 0 336.

(** Four households, two in cluster A and two in cluster B. *)
Definition four_households : DataFrame :=
  week_of "H1" "A" ++ week_of "H2" "A" ++ week_of "H3" "B" ++ week_of "H4" "B".

(* ------------------------------------------------------------------ *)
(** ** What the further properties speak of *)

(** The record read [days] days later. *)
Definition shift_days (days : Z) (r : ConsumptionRecord) : ConsumptionRecord :=
  mkRecord (household_id r) (cluster_id r)
    (timestamp r + Time.Timedelta_days days) (consumption_kwh r).

(** The clock time that a slot stands for. *)
Definition slot_clock (a : AugmentedRecord) : Prop :=
  let t := timestamp (base a) in
  Time.dt_hour t = slot a / 2
  ∧ Time.dt_minute t = 30 * (slot a mod 2)
  ∧ 30 * slot a = 60 * Time.dt_hour t + Time.dt_minute t.

(** The record is aligned to the half hour, as [add_time_features] tests. *)
Definition aligned (r : ConsumptionRecord) : Prop :=
  Time.dt_minute (timestamp r) = 0 ∨ Time.dt_minute (timestamp r) = 30.

(** The record falls on a Saturday or a Sunday, as [add_time_features] tests. *)
Definition on_weekend (r : ConsumptionRecord) : Prop :=
  5 ≤ Time.dt_dayofweek (timestamp r).

(** The row of the wide table stands for an aligned record of [df]. *)
Definition row_of_record (df : DataFrame) (r : PivotRow) : Prop :=
  ∃ rec, rec ∈ df ∧ aligned rec
         ∧ row_cluster_id r = cluster_id rec
         ∧ row_slot r
           = Time.dt_hour (timestamp rec) * 2 + Time.dt_minute (timestamp rec) / 30.

(** The record was read from a block file that exists, in the block of a
    listed row of its household, and carries the cluster of a listed row of
    that household. *)
Definition record_of_block (disk : gmap string (list BlockRow)) (blocks_dir : string)
    (listed : list InfoRow) (r : ConsumptionRecord) : Prop :=
  ∃ i i' df_block b,
    i ∈ listed ∧ LCLid i = household_id r ∧ cluster i = cluster_id r
    ∧ i' ∈ listed ∧ LCLid i' = household_id r
    ∧ disk !! block_path blocks_dir (file i') = Some df_block
    ∧ b ∈ df_block
    ∧ block_household_id b = household_id r
    ∧ block_tstp b = Some (timestamp r)
    ∧ block_energy b = Some (consumption_kwh r).

(** [sep.join(parts)]. *)
Fixpoint join (sep : string) (parts : list string) : string :=
  match parts with
  | [] => EmptyString
  | [x] => x
  | x :: rest => x +:+ sep +:+ join sep rest
  end.

(** [c in s]. *)
Fixpoint contains (c : ascii) (s : string) : bool :=
  match s with
  | EmptyString => false
  | String c' s' => bool_decide (c' = c) || contains c s'
  end.

(** [s.count(c)]. *)
Fixpoint count_char (c : ascii) (s : string) : nat :=
  match s with
  | EmptyString => 0
  | String c' s' => (if decide (c' = c) then 1 else 0) + count_char c s'
  end.


(** The records of cluster A among the three households. *)
Definition cluster_A_records : DataFrame :=
  [ mkRecord "H1" "A" (Time.datetime 2013 1 4 0 30) 1;
    mkRecord "H2" "A" (Time.datetime 2013 1 4 0 30) 2;
    mkRecord "H1" "A" (Time.datetime 2013 1 5 1 0) 3 ]%Q.

(** [--consumption-csv data.csv]. *)
Definition generic_args : Args.Namespace :=
  Args.mkArgs (Some "data.csv") None None None None "outputs/cluster_profiles"
    None None "Acorn_grouped".


(** The disk of [one_block_world] with one more block file, which no
    household of [lcl_info] refers to. *)
Definition one_more_block : gmap string (list BlockRow) :=
  <[ "blocks/block_9.csv" :=
       [ mkBlock "H1" (Some (Time.datetime 2013 1 2 0 0)) (Some 5%Q) ] ]>
    (block_files one_block_world).

(** The row has its four cells. *)
Definition complete (raw : RawRow) : Prop :=
  is_Some (raw_household_id raw) ∧ is_Some (raw_cluster_id raw)
  ∧ is_Some (raw_timestamp raw) ∧ is_Some (raw_consumption_kwh raw).

(** The raw row that a record comes from. *)
Definition raw_of (r : ConsumptionRecord) : RawRow :=
  mkRaw (Some (household_id r)) (Some (cluster_id r))
    (Some (timestamp r)) (Some (consumption_kwh r)).

(** The number of rows of the block files that exist among those of the
    listed households. *)
Definition rows_read (disk : gmap string (list BlockRow)) (blocks_dir : string)
    (listed : list InfoRow) : nat :=
  sum_list_with (λ b, from_option length 0%nat (disk !! block_path blocks_dir b.1))
    (blocks_of listed).

(** A household list that names the household H1 twice. *)
Definition listed_twice_info : InfoTable :=
  mkInfoTable ["LCLid"; "file"; "Acorn_grouped"]
    [ mkInfo "H1" "block_0" "A"; mkInfo "H1" "block_0" "A" ].

(* ================================================================== *)
(** * Properties *)

Example date_epoch : Time.date 1970 1 1 = 0.
Proof. reflexivity. Qed.

Example weekday_2013_01_05 : Time.weekday_of (Time.datetime 2013 1 5 13 30) = Time.Saturday.
Proof. reflexivity. Qed.


(* ------------------------------------------------------------------ *)
(** ** Time features *)

Lemma dt_minute_range t : 0 ≤ Time.dt_minute t < 60.
Proof. unfold Time.dt_minute. apply Z.mod_pos_bound. lia. Qed.

Lemma dt_hour_range t : 0 ≤ Time.dt_hour t < 24.
Proof. unfold Time.dt_hour. apply Z.mod_pos_bound. lia. Qed.

Lemma dt_dayofweek_range t : 0 ≤ Time.dt_dayofweek t < 7.
Proof. unfold Time.dt_dayofweek. apply Z.mod_pos_bound. lia. Qed.

Lemma weekend_index d :
  0 ≤ d < 7 →
  (5 ≤ d ↔ Time.weekday_of_index d = Time.Saturday ∨ Time.weekday_of_index d = Time.Sunday).
Proof.
  intros Hd.
  assert (d = 0 ∨ d = 1 ∨ d = 2 ∨ d = 3 ∨ d = 4 ∨ d = 5 ∨ d = 6) as Hc by lia.
  destruct Hc as [->|[->|[->|[->|[->|[->| ->]]]]]]; simpl;
    (split; [intros; first [lia | auto] | intros [?|?]; first [lia | discriminate]]).
Qed.

Lemma slot_range t : 0 ≤ Time.dt_hour t * 2 + Time.dt_minute t / 30 ≤ 47.
Proof.
  pose proof (dt_hour_range t). pose proof (dt_minute_range t).
  assert (0 ≤ Time.dt_minute t / 30) by (apply Z.div_pos; lia).
  assert (Time.dt_minute t / 30 < 2) by (apply Z.div_lt_upper_bound; lia).
  lia.
Qed.

Lemma add_time_features_cons r df :
  add_time_features (r :: df) =
    if decide (Time.dt_minute (timestamp r) ∈ [0; 30])
    then mkAugmented r
           (bool_decide (5 ≤ Time.dt_dayofweek (timestamp r)))
           (Time.dt_hour (timestamp r) * 2 + Time.dt_minute (timestamp r) / 30)
         :: add_time_features df
    else add_time_features df.
Proof. unfold add_time_features. rewrite fmap_cons, filter_cons. reflexivity. Qed.

Lemma minute_aligned_iff m : m ∈ [0; 30] ↔ m = 0 ∨ m = 30.
Proof. rewrite !elem_of_cons, elem_of_nil. tauto. Qed.

(** C5: [add_time_features] keeps exactly the records whose minute is 0 or
    30, in order, and every record it returns carries
    [slot = hour*2 + minute div 30], which lies between 0 and 47, a weekend
    flag that is true exactly on Saturday and Sunday, and an aligned
    timestamp. *)
Theorem add_time_features_spec (df : DataFrame) :
  base <$> add_time_features df
    = filter (λ r, Time.dt_minute (timestamp r) = 0 ∨ Time.dt_minute (timestamp r) = 30) df
  ∧ Forall features_ok (add_time_features df).
Proof.
  induction df as [|r df [IHeq IHall]].
  - split; [reflexivity | constructor].
  - rewrite add_time_features_cons. rewrite filter_cons.
    destruct (decide (Time.dt_minute (timestamp r) ∈ [0; 30])) as [Hin|Hin].
    + pose proof Hin as Hm. apply minute_aligned_iff in Hm.
      rewrite decide_True by exact Hm. split.
      * rewrite fmap_cons. simpl. by rewrite IHeq.
      * constructor; [|exact IHall].
        unfold features_ok; simpl. repeat split; try apply slot_range; try exact Hm.
        -- intros Hw. apply bool_decide_eq_true in Hw.
           by apply weekend_index; [apply dt_dayofweek_range|].
        -- intros Hw. apply bool_decide_eq_true.
           by apply weekend_index; [apply dt_dayofweek_range|].
    + rewrite decide_False by (by rewrite <- minute_aligned_iff). by split.
Qed.

(* ------------------------------------------------------------------ *)
(** ** Lists: membership tests, duplicates, filters *)

Lemma isin_true values x : isin values x = true ↔ x ∈ values.
Proof. unfold isin. apply bool_decide_eq_true. Qed.

Lemma isin_Is_true values x : Is_true (isin values x) ↔ x ∈ values.
Proof. rewrite Is_true_true. apply isin_true. Qed.

Lemma elem_of_drop_duplicates_from seen l x :
  x ∈ drop_duplicates_from seen l ↔ x ∈ l ∧ x ∉ seen.
Proof.
  revert seen. induction l as [|y l IH]; intros seen; simpl.
  - rewrite elem_of_nil. tauto.
  - destruct (isin seen y) eqn:Hy.
    + apply isin_true in Hy. rewrite IH, elem_of_cons. naive_solver.
    + assert (y ∉ seen) by (rewrite <- isin_true, Hy; discriminate).
      rewrite !elem_of_cons, IH, elem_of_cons.
      destruct (decide (x = y)); naive_solver.
Qed.

Lemma NoDup_drop_duplicates_from seen l : NoDup (drop_duplicates_from seen l).
Proof.
  revert seen. induction l as [|y l IH]; intros seen; simpl; [constructor|].
  destruct (isin seen y); [apply IH|].
  constructor; [|apply IH].
  rewrite elem_of_drop_duplicates_from, elem_of_cons. naive_solver.
Qed.

Lemma elem_of_drop_duplicates l x : x ∈ drop_duplicates l ↔ x ∈ l.
Proof.
  unfold drop_duplicates. rewrite elem_of_drop_duplicates_from, elem_of_nil. tauto.
Qed.

Lemma NoDup_drop_duplicates l : NoDup (drop_duplicates l).
Proof. apply NoDup_drop_duplicates_from. Qed.

Lemma elem_of_households (df : DataFrame) h : h ∈ households df ↔ ∃ r, r ∈ df ∧ household_id r = h.
Proof.
  unfold households. rewrite elem_of_drop_duplicates, list_elem_of_fmap. naive_solver.
Qed.

Lemma filter_none {A} (P : A → Prop) `{!∀ x, Decision (P x)} (l : list A) :
  (∀ x, x ∈ l → ¬ P x) → filter P l = [].
Proof.
  induction l as [|a l IH]; intros Hn; [done|].
  rewrite filter_cons_False by (apply Hn; by left).
  apply IH. intros x Hx. apply Hn. by right.
Qed.

Lemma filter_iff_in {A} (P Q : A → Prop) `{!∀ x, Decision (P x), !∀ x, Decision (Q x)}
    (l : list A) :
  (∀ x, x ∈ l → P x ↔ Q x) → filter P l = filter Q l.
Proof.
  induction l as [|a l IH]; intros HPQ; [done|].
  rewrite !filter_cons.
  rewrite IH by (intros x Hx; apply HPQ; by right).
  apply decide_ext, HPQ. by left.
Qed.

(* ------------------------------------------------------------------ *)
(** ** The Filter *)

Section FilterFacts.
Context `{Sampler}.

(** The cluster and date steps of [filter_data] are one filter by the
    conjunction of the two predicates. *)
Lemma cluster_date_steps (df : DataFrame) clusters start_date end_date :
  (let df1 :=
     match clusters with
     | Some (c :: cs) => filter (λ r, isin (c :: cs) (cluster_id r)) df
     | _ => df
     end in
   let df2 :=
     match start_date with
     | Some s => filter (λ r, s ≤ timestamp r) df1
     | None => df1
     end in
   match end_date with
   | Some e => filter (λ r, timestamp r ≤ e + Time.Timedelta_days 1) df2
   | None => df2
   end)
  = filter (λ r, cluster_ok clusters r ∧ date_ok start_date end_date r) df.
Proof.
  cbv zeta.
  assert (∀ l : DataFrame, l = filter (λ _, True) l) as Htrue.
  { intros l. induction l as [|a l IH]; [done|].
    rewrite filter_cons_True by done. by f_equal. }
  destruct end_date as [e|], start_date as [s|], clusters as [[|c cs]|];
    rewrite ?list_filter_filter; unfold date_ok, cluster_ok;
    try (apply list_filter_iff; intros r; rewrite ?isin_Is_true; tauto);
    try (rewrite (Htrue df) at 1; apply list_filter_iff; intros r; tauto).
Qed.

Lemma filter_data_unfold (df : DataFrame) sample_households clusters start_date end_date :
  filter_data df sample_households clusters start_date end_date =
    let remaining :=
      filter (λ r, cluster_ok clusters r ∧ date_ok start_date end_date r) df in
    match sample_households with
    | Some n =>
        if n =? 0 then Ok remaining
        else
          sampled ← sample (households remaining) (Z.min n (len (households remaining)));
          Ok (filter (λ r, isin sampled (household_id r)) remaining)
    | None => Ok remaining
    end.
Proof.
  pose proof (cluster_date_steps df clusters start_date end_date) as Hsteps.
  unfold filter_data. cbv zeta in *. rewrite Hsteps. reflexivity.
Qed.

End FilterFacts.

Section FilterOrder.
Context `{Sampler}.

Lemma remaining_household (df : DataFrame) clusters start_date end_date r :
  r ∈ df →
  cluster_ok clusters r ∧ date_ok start_date end_date r →
  household_id r ∈
    households (filter (λ r, cluster_ok clusters r ∧ date_ok start_date end_date r) df).
Proof.
  intros Hr Hok. apply elem_of_households. exists r. split; [|done].
  by apply list_elem_of_filter.
Qed.

(** C6: [filter_data] is the conjunction of the cluster predicate, the date
    predicate and membership in the household sample, where the sample is
    drawn from the distinct households of the records that satisfy the
    first two predicates. *)
Theorem filter_data_is_filter_by_conjunction
    (df : DataFrame) (sample_households : option Z)
    (clusters : option (list string)) (start_date end_date : option Z) :
  filter_data df sample_households clusters start_date end_date
  = filter_by_conjunction df sample_households clusters start_date end_date.
Proof.
  rewrite filter_data_unfold. unfold filter_by_conjunction, draw. cbv zeta.
  set (ok := λ r, cluster_ok clusters r ∧ date_ok start_date end_date r).
  assert (filter ok df
          = filter (λ r, cluster_ok clusters r ∧ date_ok start_date end_date r
                         ∧ household_id r ∈ households (filter ok df)) df) as Hall.
  { apply filter_iff_in. intros r Hr. unfold ok. split; [|tauto].
    intros Hok. repeat split; try apply Hok.
    by apply remaining_household. }
  destruct sample_households as [n|]; [|simpl; by f_equal].
  destruct (n =? 0); [simpl; by f_equal|].
  destruct (sample _ _) as [sampled|e]; [|done]. simpl. f_equal.
  rewrite list_filter_filter. apply list_filter_iff.
  intros r. rewrite isin_Is_true. unfold ok. tauto.
Qed.

(** With an end date alone, [filter_data] keeps the records up to and
    including the instant [end_date + 1 day]. *)
Lemma filter_data_end_date (df : DataFrame) (e : Z) :
  filter_data df None None None (Some e)
  = Ok (filter (λ r, timestamp r ≤ e + Time.Timedelta_days 1) df).
Proof. reflexivity. Qed.

(** C1: with [end_date] 2013-01-01, a record timestamped 2013-01-02 00:00,
    the first instant of the next day, passes the date filter of
    [filter_data] and the date filter of the loop over the blocks. *)
Theorem end_date_keeps_next_midnight :
  let end_date := Time.date 2013 1 1 in
  let r := mkRecord "H1" "A" (Time.datetime 2013 1 2 0 0) 1 in
  timestamp r = end_date + Time.Timedelta_days 1
  ∧ filter_data [r] None None None (Some end_date) = Ok [r]
  ∧ block_frame [mkInfo "H1" "block_0" "A"] None (Some end_date) ["H1"]
      [mkBlock "H1" (Some (Time.datetime 2013 1 2 0 0)) (Some 1%Q)]
    = Some [r].
Proof. cbv zeta. repeat split; vm_compute; reflexivity. Qed.

(** C10: a sample size of 0 and an empty cluster list are the absent
    filter, in [filter_data] and in the household list of the multi-block
    adapter: nothing is sampled away and no cluster is removed. *)
Theorem zero_sample_and_no_clusters_are_absent
    (df : DataFrame) (n : option Z) (clusters : option (list string))
    (start_date end_date : option Z)
    (info_csv : string) (info : InfoTable) (blocks_dir : string)
    (disk : gmap string (list BlockRow)) (cluster_col : string) :
  filter_data df (Some 0) clusters start_date end_date
    = filter_data df None clusters start_date end_date
  ∧ filter_data df n (Some []) start_date end_date
    = filter_data df n None start_date end_date
  ∧ filter_data df (Some 0) (Some []) None None = Ok df
  ∧ select_households info info_csv cluster_col (Some 0) clusters
    = select_households info info_csv cluster_col None clusters
  ∧ select_households info info_csv cluster_col n (Some [])
    = select_households info info_csv cluster_col n None
  ∧ load_lcl_dataset info_csv info blocks_dir disk cluster_col (Some 0) clusters
      start_date end_date
    = load_lcl_dataset info_csv info blocks_dir disk cluster_col None clusters
        start_date end_date
  ∧ load_lcl_dataset info_csv info blocks_dir disk cluster_col n (Some [])
      start_date end_date
    = load_lcl_dataset info_csv info blocks_dir disk cluster_col n None
        start_date end_date.
Proof.
  repeat split; reflexivity.
Qed.

End FilterOrder.

(* ------------------------------------------------------------------ *)
(** ** Sampling *)

(** The rows of [l] at the positions [idxs]. *)
Lemma length_rows_at {A} (l : list A) (idxs : list nat) :
  (∀ i, i ∈ idxs → (i < length l)%nat) →
  length (omap (λ i, l !! i) idxs) = length idxs.
Proof.
  induction idxs as [|i idxs IH]; intros Hlt; [done|]. simpl.
  destruct (lookup_lt_is_Some_2 l i) as [x Hx]; [apply Hlt; by left|].
  rewrite Hx. simpl. f_equal. apply IH. intros j Hj. apply Hlt. by right.
Qed.

Lemma elem_of_rows_at {A} (l : list A) (idxs : list nat) x :
  x ∈ omap (λ i, l !! i) idxs → x ∈ l.
Proof.
  rewrite list_elem_of_omap. intros (i & _ & Hi). by eapply list_elem_of_lookup_2.
Qed.

Lemma NoDup_rows_at {A} (l : list A) (idxs : list nat) :
  NoDup l → NoDup idxs → NoDup (omap (λ i, l !! i) idxs).
Proof.
  intros Hl. induction 1 as [|i idxs Hi Hidxs IH]; [constructor|]. simpl.
  destruct (l !! i) as [x|] eqn:Hx; [|exact IH].
  constructor; [|exact IH].
  rewrite list_elem_of_omap. intros (j & Hj & Hjx).
  assert (i = j) by exact (NoDup_lookup l i j x Hl Hx Hjx). by subst.
Qed.

Lemma rows_at_fmap {A B} (f : A → B) (l : list A) (idxs : list nat) :
  omap (λ i, (f <$> l) !! i) idxs = f <$> omap (λ i, l !! i) idxs.
Proof.
  induction idxs as [|i idxs IH]; [done|]. simpl in *.
  rewrite list_lookup_fmap. destruct (l !! i); simpl; [f_equal|]; exact IH.
Qed.

Section SamplingFacts.
Context `{Sampler}.

Lemma sample_Ok {A} (l : list A) (n : Z) :
  0 ≤ n ≤ len l →
  sample l n = Ok (omap (λ i, l !! i) (choice (length l) (Z.to_nat n))).
Proof.
  intros Hn. unfold sample, len in *.
  destruct (Z.ltb_spec n 0); [lia|].
  destruct (Z.ltb_spec (Z.of_nat (length l)) n); [lia|]. reflexivity.
Qed.

Lemma sample_negative {A} (l : list A) (n : Z) :
  n < 0 → sample l n = Raise ValueError_negative_sample.
Proof. intros Hn. unfold sample. destruct (Z.ltb_spec n 0); [done|lia]. Qed.

(** A sample of [n] rows is [n] rows of the frame at distinct positions. *)
Lemma sample_spec {A} (l : list A) (n : Z) :
  0 ≤ n ≤ len l →
  ∃ out, sample l n = Ok out
         ∧ len out = n
         ∧ (∀ x, x ∈ out → x ∈ l)
         ∧ (∀ B (f : A → B), NoDup (f <$> l) → NoDup (f <$> out)).
Proof.
  intros Hn. eexists. split; [by apply sample_Ok|]. unfold len in *. repeat split.
  - rewrite length_rows_at by (intros i; apply choice_bound).
    rewrite choice_length by lia. lia.
  - intros x. apply elem_of_rows_at.
  - intros B f Hf. rewrite <- rows_at_fmap.
    apply NoDup_rows_at; [exact Hf|]. apply choice_NoDup.
Qed.

Lemma min_sample_range (n m : Z) : 1 ≤ n → 0 ≤ m → 0 ≤ Z.min n m ≤ m.
Proof. lia. Qed.

Lemma len_nonneg {A} (l : list A) : 0 ≤ len l.
Proof. unfold len. lia. Qed.

(** The households of the records kept for a set of sampled households
    are the sampled households. *)
Lemma households_of_sampled (df : DataFrame) (sampled : list string) :
  NoDup sampled →
  (∀ h, h ∈ sampled → h ∈ households df) →
  households (filter (λ r, isin sampled (household_id r)) df) ≡ₚ sampled.
Proof.
  intros Hnd Hsub. apply NoDup_Permutation; [apply NoDup_drop_duplicates|exact Hnd|].
  intros h. rewrite elem_of_households. split.
  - intros (r & Hr & <-). apply list_elem_of_filter in Hr as [Hr _].
    by apply isin_Is_true.
  - intros Hh. destruct (proj1 (elem_of_households df h) (Hsub h Hh)) as (r & Hr & <-).
    exists r. split; [|done]. apply list_elem_of_filter. split; [|done].
    by apply isin_Is_true.
Qed.

(** Sampling in [filter_data]: for a sample size of at least 1, the
    households kept are [min N k] of the [k] distinct households left by
    the cluster and date filters. *)
Lemma filter_data_sample_size (df : DataFrame) (N : Z) clusters start_date end_date :
  1 ≤ N →
  ∃ out, filter_data df (Some N) clusters start_date end_date = Ok out
    ∧ len (households out)
      = Z.min N (len (households
          (filter (λ r, cluster_ok clusters r ∧ date_ok start_date end_date r) df)))
    ∧ (∀ h, h ∈ households out →
         h ∈ households
           (filter (λ r, cluster_ok clusters r ∧ date_ok start_date end_date r) df)).
Proof.
  intros HN. rewrite filter_data_unfold. cbv zeta.
  set (remaining := filter _ df).
  destruct (Z.eqb_spec N 0); [lia|].
  destruct (sample_spec (households remaining) (Z.min N (len (households remaining))))
    as (sampled & -> & Hlen & Hsub & Hnd).
  { apply min_sample_range; [done|apply len_nonneg]. }
  simpl. eexists. split; [reflexivity|].
  assert (households (filter (λ r, isin sampled (household_id r)) remaining) ≡ₚ sampled)
    as Hperm.
  { apply households_of_sampled; [|exact Hsub].
    specialize (Hnd _ id). rewrite !list_fmap_id in Hnd.
    apply Hnd, NoDup_drop_duplicates. }
  split.
  - unfold len in *. by rewrite Hperm.
  - intros h Hh. apply Hsub. by rewrite <- Hperm.
Qed.

(** Sampling of the household list in the multi-block adapter: for a
    sample size of at least 1, [min N k] of the [k] rows left by the
    cluster filter are kept; they name distinct households when the rows
    of the list do. *)
Lemma select_households_sample_size (info : InfoTable) info_csv cluster_col
    (N : Z) clusters :
  1 ≤ N →
  missing_columns ["LCLid"; "file"; cluster_col] (info_columns info) = ∅ →
  let listed :=
    match clusters with
    | Some (c :: cs) => filter (λ i, isin (c :: cs) (cluster i)) (info_rows info)
    | _ => info_rows info
    end in
  listed ≠ [] →
  ∃ out, select_households info info_csv cluster_col (Some N) clusters = Ok out
    ∧ len out = Z.min N (len listed)
    ∧ (∀ i, i ∈ out → i ∈ listed)
    ∧ (NoDup (LCLid <$> listed) → NoDup (LCLid <$> out)).
Proof.
  intros HN Hcols listed Hne. unfold select_households. cbv zeta.
  rewrite decide_False by (by intros []).
  fold listed. destruct listed as [|i0 listed'] eqn:Hl; [done|]. rewrite <- Hl.
  destruct (Z.eqb_spec N 0); [lia|].
  destruct (sample_spec listed (Z.min N (len listed)))
    as (out & -> & Hlen & Hsub & Hnd).
  { apply min_sample_range; [done|apply len_nonneg]. }
  exists out. repeat split; try done. apply Hnd.
Qed.

End SamplingFacts.

Lemma drop_duplicates_from_NoDup seen l :
  NoDup l → (∀ x, x ∈ l → x ∉ seen) → drop_duplicates_from seen l = l.
Proof.
  intros Hl. revert seen. induction Hl as [|x l Hx Hl IH]; intros seen Hseen; [done|].
  simpl. destruct (isin seen x) eqn:Hin.
  - apply isin_true in Hin. exfalso. by apply (Hseen x); [left|].
  - f_equal. apply IH. intros y Hy. rewrite elem_of_cons. intros [->|Hys]; [done|].
    by apply (Hseen y); [right|].
Qed.

Lemma drop_duplicates_NoDup l : NoDup l → drop_duplicates l = l.
Proof.
  intros Hl. apply drop_duplicates_from_NoDup; [done|].
  intros x _. apply not_elem_of_nil.
Qed.

(** C4, as amended: for a sample size [N] of at least 1, [filter_data]
    keeps exactly [min N k] households of the [k] distinct households left
    by the cluster and date filters, and the multi-block adapter keeps
    exactly [min N k] rows of the [k] rows of the household list left by the
    cluster filter, which are [min N k] distinct households when the list
    names each household once; the selection is a function of the input
    and of [N]. *)
Theorem household_sampling `{Sampler}
    (df : DataFrame) (info : InfoTable) (info_csv cluster_col : string)
    (N : Z) (clusters : option (list string)) (start_date end_date : option Z) :
  let listed :=
    match clusters with
    | Some (c :: cs) => filter (λ i, isin (c :: cs) (cluster i)) (info_rows info)
    | _ => info_rows info
    end in
  1 ≤ N →
  missing_columns ["LCLid"; "file"; cluster_col] (info_columns info) = ∅ →
  listed ≠ [] →
  NoDup (LCLid <$> listed) →
  (∃ out, filter_data df (Some N) clusters start_date end_date = Ok out
     ∧ len (households out)
       = Z.min N (len (households
           (filter (λ r, cluster_ok clusters r ∧ date_ok start_date end_date r) df)))
     ∧ ∀ out', filter_data df (Some N) clusters start_date end_date = Ok out' →
               households out' = households out)
  ∧ (∃ out, select_households info info_csv cluster_col (Some N) clusters = Ok out
       ∧ len out = Z.min N (len listed)
       ∧ len (drop_duplicates (LCLid <$> out))
         = Z.min N (len (drop_duplicates (LCLid <$> listed)))
       ∧ ∀ out', select_households info info_csv cluster_col (Some N) clusters = Ok out' →
                 out' = out).
Proof.
  intros listed HN Hcols Hne Hnd. split.
  - destruct (filter_data_sample_size df N clusters start_date end_date HN)
      as (out & Hout & Hlen & _).
    exists out. repeat split; [exact Hout|exact Hlen|].
    intros out' Hout'. congruence.
  - destruct (select_households_sample_size info info_csv cluster_col N clusters
                HN Hcols Hne) as (out & Hout & Hlen & _ & Hnd').
    exists out. repeat split; [exact Hout|exact Hlen| |].
    + rewrite !drop_duplicates_NoDup by auto. unfold len in *.
      rewrite !length_fmap. exact Hlen.
    + intros out' Hout'. congruence.
Qed.

Lemma household_sampling_witness :
  (∃ out, filter_data (H:=prefix_sampler) three_households (Some 2) None None None = Ok out
     ∧ len (households out)
       = Z.min 2 (len (households
           (filter (λ r, cluster_ok None r ∧ date_ok None None r) three_households)))
     ∧ ∀ out', filter_data (H:=prefix_sampler) three_households (Some 2) None None None
                 = Ok out' →
               households out' = households out)
  ∧ (∃ out, select_households (H:=prefix_sampler) three_listed "info.csv" "Acorn_grouped"
              (Some 2) None = Ok out
       ∧ len out = Z.min 2 (len (info_rows three_listed))
       ∧ len (drop_duplicates (LCLid <$> out))
         = Z.min 2 (len (drop_duplicates (LCLid <$> info_rows three_listed)))
       ∧ ∀ out', select_households (H:=prefix_sampler) three_listed "info.csv"
                   "Acorn_grouped" (Some 2) None = Ok out' →
                 out' = out).
Proof.
  apply (household_sampling (H:=prefix_sampler) three_households three_listed
           "info.csv" "Acorn_grouped" 2 None None None).
  - lia.
  - vm_compute. reflexivity.
  - discriminate.
  - apply (bool_decide_unpack _). vm_compute. exact I.
Defined.

(** Whatever the sampler draws for two rows out of three, some household
    list with a household listed twice loses a household: the two rows
    drawn name one household although the list names two. *)
Lemma listed_twice_sampled_once `{Sampler} :
  ∃ i j out,
    select_households (listed_twice i j) "info.csv" "Acorn_grouped" (Some 2) None = Ok out
    ∧ len (drop_duplicates (LCLid <$> out)) = 1
    ∧ Z.min 2 (len (drop_duplicates (LCLid <$> info_rows (listed_twice i j)))) = 2.
Proof.
  pose proof (choice_length 3 2 ltac:(lia)) as Hlen.
  pose proof (choice_NoDup 3 2) as Hnd.
  pose proof (choice_bound 3 2) as Hb.
  destruct (choice 3 2) as [|i [|j [|]]] eqn:Hc; try discriminate.
  apply NoDup_cons in Hnd as [Hij _]. rewrite elem_of_cons, elem_of_nil in Hij.
  assert (i < 3)%nat as Hi by (apply Hb; by left).
  assert (j < 3)%nat as Hj by (apply Hb; right; by left).
  exists i, j.
  assert (select_households (listed_twice i j) "info.csv" "Acorn_grouped" (Some 2) None
          = Ok (omap (λ k, info_rows (listed_twice i j) !! k) [i; j])) as ->.
  { assert (sample (info_rows (listed_twice i j))
                   (Z.min 2 (len (info_rows (listed_twice i j))))
            = Ok (omap (λ k, info_rows (listed_twice i j) !! k) [i; j])) as Hs.
    { rewrite sample_Ok by (vm_compute; split; discriminate).
      rewrite <- Hc. reflexivity. }
    unfold select_households. cbv zeta.
    rewrite decide_False by (intros Hm; apply Hm; vm_compute; reflexivity).
    exact Hs. }
  eexists. split; [reflexivity|].
  destruct i as [|[|[|]]], j as [|[|[|]]]; try lia; try (exfalso; apply Hij; by left);
    split; vm_compute; reflexivity.
Qed.

(** C4, as stated, fails at sample size 0, where [filter_data] keeps all
    three households of the input and not [min 0 3 = 0] of them; and for the
    multi-block adapter it fails, whatever the sampler, on some household
    list that names a household twice. *)
Lemma sample_size_zero_keeps_all_households :
  (filter_data (H:=prefix_sampler) three_households (Some 0) None None None
     = Ok three_households
   ∧ len (households three_households) = 3
   ∧ Z.min 0 (len (households three_households)) = 0)
  ∧ (∀ S : Sampler, ∃ i j out,
       select_households (H:=S) (listed_twice i j) "info.csv" "Acorn_grouped" (Some 2) None
         = Ok out
       ∧ len (drop_duplicates (LCLid <$> out)) = 1
       ∧ Z.min 2 (len (drop_duplicates (LCLid <$> info_rows (listed_twice i j)))) = 2).
Proof.
  split; [repeat split; vm_compute; reflexivity|].
  intros S. apply listed_twice_sampled_once.
Qed.

(* ------------------------------------------------------------------ *)
(** ** Aggregation *)

Section SortedUnique.
Context `{Countable A} (le : relation A) `{∀ x y, Decision (le x y)}.

Lemma elem_of_sorted_unique (l : list A) x : x ∈ sorted_unique le l ↔ x ∈ l.
Proof.
  unfold sorted_unique. rewrite merge_sort_Permutation, elem_of_elements.
  apply elem_of_list_to_set.
Qed.

Lemma NoDup_sorted_unique (l : list A) : NoDup (sorted_unique le l).
Proof. unfold sorted_unique. rewrite merge_sort_Permutation. apply NoDup_elements. Qed.

Lemma sorted_unique_Permutation (l l' : list A) :
  l ≡ₚ l' → sorted_unique le l = sorted_unique le l'.
Proof. intros Hp. unfold sorted_unique. by rewrite Hp. Qed.

End SortedUnique.

Lemma point_key_grouped (df : list AugmentedRecord) :
  point_key <$> grouped df = sorted_unique group_key_le (group_key <$> df).
Proof.
  unfold grouped. rewrite <- list_fmap_compose.
  rewrite <- (list_fmap_id (sorted_unique _ _)) at 2.
  apply list_fmap_ext. by intros _ [[c w] s] _.
Qed.

Lemma point64_key_grouped (df : list AugmentedRecord) :
  point64_key <$> grouped_float64 df = sorted_unique group_key_le (group_key <$> df).
Proof.
  unfold grouped_float64. rewrite <- list_fmap_compose.
  rewrite <- (list_fmap_id (sorted_unique _ _)) at 2.
  apply list_fmap_ext. by intros _ [[c w] s] _.
Qed.

(** The two long forms list the same keys in the same order. *)
Lemma point64_key_point_key (df : list AugmentedRecord) :
  point64_key <$> grouped_float64 df = point_key <$> grouped df.
Proof. by rewrite point64_key_grouped, point_key_grouped. Qed.

Lemma group_members_records_of_key (df : list AugmentedRecord) c w s :
  group_members df (c, w, s) = records_of_key df c w s.
Proof.
  apply list_filter_iff. intros a. unfold group_key. split.
  - by intros [= -> -> ->].
  - by intros (-> & -> & ->).
Qed.

Lemma records_of_key_nonempty (df : list AugmentedRecord) c w s :
  records_of_key df c w s ≠ [] ↔ (c, w, s) ∈ group_key <$> df.
Proof.
  rewrite list_elem_of_fmap. split.
  - intros Hne. destruct (records_of_key df c w s) as [|a l] eqn:E; [done|].
    assert (a ∈ records_of_key df c w s) as Ha by (rewrite E; left).
    apply list_elem_of_filter in Ha as [(<- & <- & <-) Ha]. by exists a.
  - intros (a & Hk & Ha) Hnil.
    assert (a ∈ records_of_key df c w s) as Hin.
    { apply list_elem_of_filter. split; [|done]. unfold group_key in Hk. by injection Hk as -> -> ->. }
    rewrite Hnil in Hin. by apply elem_of_nil in Hin.
Qed.

Lemma records_of_key_Permutation (df df' : list AugmentedRecord) c w s :
  df ≡ₚ df' → records_of_key df c w s ≡ₚ records_of_key df' c w s.
Proof. intros Hp. unfold records_of_key. by rewrite Hp. Qed.

Lemma F64_sub_zero (v : float64) : F64.sub v F64.zero = v.
Proof. by destruct v as [[]|[]| |s m e]. Qed.

Lemma F64_add_comm (x y : float64) : F64.add x y = F64.add y x.
Proof.
  destruct x as [[]|[]| |s1 m1 e1], y as [[]|[]| |s2 m2 e2]; try reflexivity.
  unfold F64.add, SpecFloat.SFadd. by rewrite (Z.min_comm e2 e1), Z.add_comm.
Qed.

Lemma F64_sub_diag (x : float64) :
  F64.is_nan (F64.sub x x) = true ∨ F64.sub x x = F64.zero.
Proof.
  destruct x as [[]|[]| |s m e]; try (by left); try (by right).
  right. unfold F64.sub, SpecFloat.SFsub. by rewrite Z.sub_diag.
Qed.

(** The first value of a group leaves no compensation. *)
Lemma group_mean_step_first (v : float64) :
  group_mean_step (F64.zero, F64.zero) v = (F64.add F64.zero v, F64.zero).
Proof.
  unfold group_mean_step. rewrite F64_sub_zero.
  assert (F64.sub (F64.add F64.zero v) F64.zero = F64.add F64.zero v) as ->
    by apply F64_sub_zero.
  f_equal. destruct v as [[]|[]| |s m e]; try reflexivity.
  change (F64.add F64.zero (SpecFloat.S754_finite s m e)) with (SpecFloat.S754_finite s m e).
  destruct (F64_sub_diag (SpecFloat.S754_finite s m e)) as [Hd|Hd]; by rewrite Hd.
Qed.

(** The sum of two values is their float64 sum, in either order. *)
Lemma group_sum_pair (v1 v2 : float64) : group_sum [v1; v2] = group_sum [v2; v1].
Proof.
  unfold group_sum. cbn [foldl]. rewrite !group_mean_step_first.
  unfold group_mean_step. cbn [fst]. rewrite !F64_sub_zero.
  destruct v1 as [[]|[]| |s1 m1 e1], v2 as [[]|[]| |s2 m2 e2]; try reflexivity.
  change (F64.add F64.zero (SpecFloat.S754_finite ?s ?m ?e)) with (SpecFloat.S754_finite s m e).
  apply F64_add_comm.
Qed.

Lemma group_mean_Permutation_short (l l' : list float64) :
  l ≡ₚ l' → (length l ≤ 2)%nat → group_mean l = group_mean l'.
Proof.
  intros Hp Hlen. pose proof (Permutation_length Hp) as Hl.
  destruct l as [|a [|b [|c l]]]; [| | |simpl in Hlen; lia].
  - by apply Permutation_nil_l in Hp as ->.
  - by apply Permutation_singleton_l in Hp as ->.
  - destruct l' as [|x [|y [|z l']]]; try done.
    assert (x = a ∧ y = b ∨ x = b ∧ y = a) as [[-> ->]|[-> ->]].
    { assert (a ∈ [x; y]) as Ha by (rewrite <- Hp; set_solver).
      assert (b ∈ [x; y]) as Hb by (rewrite <- Hp; set_solver).
      assert (x ∈ [a; b]) as Hx by (rewrite Hp; set_solver).
      assert (y ∈ [a; b]) as Hy by (rewrite Hp; set_solver).
      set_solver. }
    + done.
    + unfold group_mean. by rewrite group_sum_pair.
Qed.

(** C3: the long form has one point per key [(cluster_id, is_weekend,
    slot)], and a key has a point exactly when some record carries it, so
    that no point stands for an empty group. The average of a point is the
    float64 sum of the consumption of the records with the point's cluster,
    weekend flag and slot, summed in row order, divided by their number. A
    permutation of the input gives the same keys in the same order and, for
    each key, the same members up to their order; the points are the same
    when each group keeps the order of its members or has at most two of
    them. The averages of a larger group whose members are reordered are
    not promised to agree. *)
Theorem grouped_float64_is_mean_by_key (df df' : list AugmentedRecord) :
  df ≡ₚ df' →
  NoDup (point64_key <$> grouped_float64 df)
  ∧ (∀ c w s, (c, w, s) ∈ point64_key <$> grouped_float64 df
              ↔ records_of_key df c w s ≠ [])
  ∧ Forall (λ p,
      let members :=
        records_of_key df (point64_cluster_id p) (point64_is_weekend p) (point64_slot p) in
      members ≠ []
      ∧ avg_consumption_kwh64 p
        = F64.div (group_sum ((F64.of_Q ∘ consumption_kwh ∘ base) <$> members))
            (F64.of_Z (Z.of_nat (length members))))
      (grouped_float64 df)
  ∧ point64_key <$> grouped_float64 df' = point64_key <$> grouped_float64 df
  ∧ (∀ c w s, records_of_key df' c w s ≡ₚ records_of_key df c w s)
  ∧ ((∀ c w s, records_of_key df' c w s = records_of_key df c w s
               ∨ (length (records_of_key df c w s) ≤ 2)%nat)
     → grouped_float64 df' = grouped_float64 df).
Proof.
  intros Hp. rewrite !point64_key_grouped.
  assert (sorted_unique group_key_le (group_key <$> df')
          = sorted_unique group_key_le (group_key <$> df)) as Hkeys.
  { apply sorted_unique_Permutation. by rewrite Hp. }
  split; [apply NoDup_sorted_unique|].
  split.
  { intros c w s. rewrite elem_of_sorted_unique. symmetry. apply records_of_key_nonempty. }
  split.
  { apply Forall_forall. intros p Hin. unfold grouped_float64 in Hin.
    apply list_elem_of_fmap in Hin as ([[c w] s] & -> & Hk).
    apply elem_of_sorted_unique in Hk. cbn.
    rewrite <- group_members_records_of_key. split.
    - rewrite group_members_records_of_key. by apply records_of_key_nonempty.
    - unfold group_mean, len. by rewrite length_fmap. }
  split; [exact Hkeys|].
  split.
  { intros c w s. symmetry. by apply records_of_key_Permutation. }
  intros Hsame. unfold grouped_float64. rewrite Hkeys.
  apply list_fmap_ext. intros _ [[c w] s] _. cbn. f_equal.
  rewrite !group_members_records_of_key.
  destruct (Hsame c w s) as [->|Hlen]; [done|].
  apply group_mean_Permutation_short.
  - apply fmap_Permutation. symmetry. by apply records_of_key_Permutation.
  - rewrite length_fmap.
    by rewrite <- (Permutation_length (records_of_key_Permutation df df' c w s Hp)).
Qed.

(* ------------------------------------------------------------------ *)
(** ** Reshaping *)

Lemma filter_key_absent {A K} `{EqDecision K} (f : A → K) (l : list A) k :
  k ∉ f <$> l → filter (λ y, f y = k) l = [].
Proof.
  induction l as [|a l IH]; [done|]. rewrite fmap_cons, not_elem_of_cons.
  intros [Hne Hk]. rewrite filter_cons_False by done. by apply IH.
Qed.

Lemma filter_key_unique {A K} `{EqDecision K} (f : A → K) (l : list A) x :
  NoDup (f <$> l) → x ∈ l → filter (λ y, f y = f x) l = [x].
Proof.
  induction l as [|a l IH]; intros Hnd Hx; [by apply elem_of_nil in Hx|].
  rewrite fmap_cons in Hnd. apply NoDup_cons in Hnd as [Ha Hnd].
  apply elem_of_cons in Hx as [->|Hx].
  - rewrite filter_cons_True by done. f_equal. by apply filter_key_absent.
  - rewrite filter_cons_False; [by apply IH|].
    intros Heq. apply Ha. rewrite Heq. by apply list_elem_of_fmap_2.
Qed.

Lemma mean_singleton (q : Q) : mean [Qred q] = Qred q.
Proof.
  unfold mean. simpl. rewrite <- (Qred_involutive q) at 2.
  apply Qred_complete. unfold Qdiv. simpl. unfold Qinv. simpl. ring.
Qed.

Lemma NoDup_point_key_grouped (df : list AugmentedRecord) :
  NoDup (point_key <$> grouped df).
Proof. rewrite point_key_grouped. apply NoDup_sorted_unique. Qed.

Lemma elem_of_grouped (df : list AugmentedRecord) p :
  p ∈ grouped df ↔
    point_key p ∈ group_key <$> df
    ∧ avg_consumption_kwh p
      = mean ((consumption_kwh ∘ base) <$> group_members df (point_key p)).
Proof.
  unfold grouped. rewrite list_elem_of_fmap. split.
  - intros ([[c w] s] & -> & Hk). split; [|done].
    by apply elem_of_sorted_unique in Hk.
  - intros [Hk Havg]. exists (point_key p). split.
    + destruct p as [c w s v]. simpl in *. by rewrite Havg.
    + by apply elem_of_sorted_unique.
Qed.

(** A cell of the pivot of the long form: the mean of the group when the
    group has a member, and a missing value otherwise. *)
Lemma pivot_cell_grouped (df : list AugmentedRecord) (i : IndexKey) (w : bool) :
  pivot_cell (grouped df) i w =
    if decide ((i.1, w, i.2) ∈ group_key <$> df)
    then Some (mean ((consumption_kwh ∘ base) <$> group_members df (i.1, w, i.2)))
    else None.
Proof.
  unfold pivot_cell.
  assert (filter (λ p, index_key p = i ∧ point_is_weekend p = w) (grouped df)
          = filter (λ p, point_key p = (i.1, w, i.2)) (grouped df)) as ->.
  { apply list_filter_iff. intros [c w' s]. destruct i as [c0 s0].
    unfold index_key, point_key. simpl. naive_solver. }
  destruct (decide _) as [Hin|Hin].
  - set (p := mkPoint i.1 w i.2
                (mean ((consumption_kwh ∘ base) <$> group_members df (i.1, w, i.2)))).
    assert (p ∈ grouped df) as Hp by (by apply elem_of_grouped).
    change (i.1, w, i.2) with (point_key p) at 1.
    rewrite (filter_key_unique point_key (grouped df) p (NoDup_point_key_grouped df) Hp).
    simpl. f_equal. unfold mean at 2. apply mean_singleton.
  - rewrite filter_key_absent; [done|].
    rewrite point_key_grouped. by rewrite elem_of_sorted_unique.
Qed.

Lemma row_key_pivot_table (long : list ProfilePoint) :
  row_key <$> rows (pivot_table long) = sorted_unique index_key_le (index_key <$> long).
Proof.
  unfold pivot_table. cbn [rows]. rewrite <- list_fmap_compose.
  etransitivity; [|apply list_fmap_id].
  apply list_fmap_ext. by intros _ [c s] _.
Qed.

Lemma elem_of_index_key_grouped (df : list AugmentedRecord) (i : IndexKey) :
  i ∈ index_key <$> grouped df ↔ ∃ a, a ∈ df ∧ (cluster_id (base a), slot a) = i.
Proof.
  rewrite list_elem_of_fmap. split.
  - intros (p & -> & Hp). apply elem_of_grouped in Hp as [Hk _].
    apply list_elem_of_fmap in Hk as (a & Hk & Ha). exists a. split; [done|].
    unfold point_key, group_key, index_key in *.
    injection Hk as Hc _ Hs. by rewrite Hc, Hs.
  - intros (a & Ha & <-).
    exists (mkPoint (cluster_id (base a)) (is_weekend a) (slot a)
              (mean ((consumption_kwh ∘ base) <$> group_members df (group_key a)))).
    split; [done|]. apply elem_of_grouped. split; [|done].
    change (group_key a ∈ group_key <$> df). by apply list_elem_of_fmap_2.
Qed.

(** What the reshaper does on every input: one row per distinct
    [(cluster_id, slot)] of the input and none else, one value column per
    weekend flag that occurs in the input, and in each row, under each
    column, the mean of the group or a missing value, never a fabricated
    number. *)
Lemma compute_profiles_rows_and_cells (df : list AugmentedRecord) :
  let t := pivot_table (grouped df) in
  rows (compute_profiles df) = rows t
  ∧ NoDup (row_key <$> rows t)
  ∧ (∀ i, i ∈ row_key <$> rows t ↔ ∃ a, a ∈ df ∧ (cluster_id (base a), slot a) = i)
  ∧ (∀ w, w ∈ value_columns t ↔ ∃ a, a ∈ df ∧ is_weekend a = w)
  ∧ Forall (λ r, row_values r =
                 (λ w, if decide ((row_cluster_id r, w, row_slot r) ∈ group_key <$> df)
                       then Some (mean ((consumption_kwh ∘ base)
                                    <$> group_members df (row_cluster_id r, w, row_slot r)))
                       else None) <$> value_columns t) (rows t).
Proof.
  cbv zeta. split; [reflexivity|]. rewrite row_key_pivot_table. repeat split.
  - apply NoDup_sorted_unique.
  - rewrite elem_of_sorted_unique. apply elem_of_index_key_grouped.
  - rewrite elem_of_sorted_unique. apply elem_of_index_key_grouped.
  - unfold pivot_table. simpl. rewrite elem_of_sorted_unique, list_elem_of_fmap.
    intros (p & -> & Hp). apply elem_of_grouped in Hp as [Hk _].
    apply list_elem_of_fmap in Hk as (a & Hk & Ha). exists a. split; [done|].
    unfold point_key, group_key in Hk. by injection Hk as _ Hw _.
  - intros (a & Ha & <-). unfold pivot_table. simpl.
    rewrite elem_of_sorted_unique, list_elem_of_fmap.
    exists (mkPoint (cluster_id (base a)) (is_weekend a) (slot a)
              (mean ((consumption_kwh ∘ base) <$> group_members df (group_key a)))).
    split; [done|]. apply elem_of_grouped. split; [|done].
    change (group_key a ∈ group_key <$> df). by apply list_elem_of_fmap_2.
  - apply Forall_forall. intros r Hr. unfold pivot_table in *. simpl in *.
    apply list_elem_of_fmap in Hr as ([c s] & -> & _). simpl.
    apply list_fmap_ext. intros _ w _. by rewrite pivot_cell_grouped.
Qed.

(** C2: on an input whose records all fall on weekdays, the table that
    [compute_profiles] returns has the single value column [weekday_kwh]:
    there is no [weekend_kwh] column to hold a missing value, the plotter
    fails on the first cluster, and the run ends in that failure after the
    table has been written. *)
Theorem weekday_only_input_has_no_weekend_column :
  let profiles := compute_profiles (add_time_features weekday_only) in
  let row := mkPivotRow "A" 1 [Some 1%Q] in
  profiles = mkPivot ["weekday_kwh"] [row]
  ∧ get_value profiles row "weekday_kwh" = Some (Some 1%Q)
  ∧ get_value profiles row "weekend_kwh" = None
  ∧ plot_profiles profiles "outputs/cluster_profiles" = ([], Raise (KeyError "weekend_kwh"))
  ∧ main (H:=prefix_sampler) weekday_only_args weekday_only_world
    = ([SaveProfiles "outputs/cluster_profiles" profiles], Raise (KeyError "weekend_kwh")).
Proof. cbv zeta. repeat split; vm_compute; reflexivity. Qed.

(* ------------------------------------------------------------------ *)
(** ** Schema errors *)

Lemma elem_of_missing_columns required columns c :
  c ∈ missing_columns required columns ↔ c ∈ required ∧ c ∉ columns.
Proof.
  unfold missing_columns. by rewrite elem_of_difference, !elem_of_list_to_set.
Qed.

Lemma missing_columns_nonempty required columns :
  missing_columns required columns ≠ ∅ ↔ ∃ c, c ∈ required ∧ c ∉ columns.
Proof.
  split.
  - intros Hne. apply set_choose_L in Hne as [c Hc]. exists c.
    by apply elem_of_missing_columns.
  - intros (c & Hc). apply (non_empty_inhabited_L c). by apply elem_of_missing_columns.
Qed.

Lemma load_data_cases (path : string) (df : RawTable) :
  ((∃ c, c ∈ required_columns ∧ c ∉ raw_columns df)
   ∧ load_data path df
     = Raise (ValueError_missing_columns path
                (missing_columns required_columns (raw_columns df))))
  ∨ ((∀ c, c ∈ required_columns → c ∈ raw_columns df)
     ∧ load_data path df = Ok (omap dropna_raw (raw_rows df))).
Proof.
  unfold load_data. cbv zeta. fold required_columns.
  destruct (decide _) as [Hne|He].
  - left. split; [by apply missing_columns_nonempty|done].
  - right. split; [|done]. intros c Hc.
    destruct (decide (c ∈ raw_columns df)) as [|Hn]; [done|].
    exfalso. apply He, missing_columns_nonempty. by exists c.
Qed.

Section SchemaErrors.
Context `{Sampler}.

Lemma select_households_cases (info : InfoTable) info_csv cluster_col
    sample_households clusters :
  ((∃ c, c ∈ ["LCLid"; "file"; cluster_col] ∧ c ∉ info_columns info)
   ∧ select_households info info_csv cluster_col sample_households clusters
     = Raise (ValueError_missing_columns info_csv
                (missing_columns ["LCLid"; "file"; cluster_col] (info_columns info))))
  ∨ ((∀ c, c ∈ ["LCLid"; "file"; cluster_col] → c ∈ info_columns info)
     ∧ ∀ table missing,
         select_households info info_csv cluster_col sample_households clusters
         ≠ Raise (ValueError_missing_columns table missing)).
Proof.
  unfold select_households. cbv zeta.
  destruct (decide _) as [Hne|He].
  - left. split; [by apply missing_columns_nonempty|done].
  - right. split.
    + intros c Hc. destruct (decide (c ∈ info_columns info)) as [|Hn]; [done|].
      exfalso. apply He, missing_columns_nonempty. by exists c.
    + intros table missing.
      destruct (match clusters with Some (c :: cs) => _ | _ => _ end) as [|i listed];
        [done|].
      destruct sample_households as [n|]; [|done].
      destruct (n =? 0); [done|]. unfold sample.
      destruct (_ <? 0); [done|]. by destruct (_ <? _).
Qed.

Lemma load_lcl_dataset_raises (info : InfoTable) info_csv blocks_dir disk
    cluster_col sample_households clusters start_date end_date table missing :
  (load_lcl_dataset info_csv info blocks_dir disk cluster_col sample_households
     clusters start_date end_date).2 = Raise (ValueError_missing_columns table missing) →
  select_households info info_csv cluster_col sample_households clusters
  = Raise (ValueError_missing_columns table missing).
Proof.
  unfold load_lcl_dataset.
  destruct (select_households _ _ _ _ _) as [listed|e]. 2: { simpl. by intros [= ->]. }
  destruct (load_blocks _ _ _ _ _ _) as [out [|f frames]]; simpl; by intros.
Qed.

(** C8: [load_data] raises the schema error exactly when one of the four
    required columns is absent, the multi-block adapter exactly when one
    of [LCLid], [file] and the cluster column is absent from the info
    table, and the error carries every absent column and nothing else. *)
Theorem schema_error_lists_every_missing_column
    (path : string) (df : RawTable)
    (info_csv : string) (info : InfoTable) (blocks_dir : string)
    (disk : gmap string (list BlockRow)) (cluster_col : string)
    (sample_households : option Z) (clusters : option (list string))
    (start_date end_date : option Z) :
  let missing := missing_columns required_columns (raw_columns df) in
  let required_info_cols := ["LCLid"; "file"; cluster_col] in
  let missing_info := missing_columns required_info_cols (info_columns info) in
  let loaded :=
    (load_lcl_dataset info_csv info blocks_dir disk cluster_col sample_households
       clusters start_date end_date).2 in
  (∀ c, c ∈ missing ↔ c ∈ required_columns ∧ c ∉ raw_columns df)
  ∧ ((∃ c, c ∈ required_columns ∧ c ∉ raw_columns df)
     ↔ load_data path df = Raise (ValueError_missing_columns path missing))
  ∧ ((∃ c, c ∈ required_columns ∧ c ∉ raw_columns df)
     ↔ ∃ e, load_data path df = Raise e)
  ∧ (∀ c, c ∈ missing_info ↔ c ∈ required_info_cols ∧ c ∉ info_columns info)
  ∧ ((∃ c, c ∈ required_info_cols ∧ c ∉ info_columns info)
     ↔ loaded = Raise (ValueError_missing_columns info_csv missing_info))
  ∧ ((∃ c, c ∈ required_info_cols ∧ c ∉ info_columns info)
     ↔ ∃ table columns, loaded = Raise (ValueError_missing_columns table columns)).
Proof.
  cbv zeta. split; [intros c; apply elem_of_missing_columns|].
  assert (∀ columns : list string,
            (∃ c, c ∈ required_columns ∧ c ∉ columns)
            → (∀ c, c ∈ required_columns → c ∈ columns) → False) as Hno.
  { intros columns (c & Hc & Hn) Hall. by apply Hn, Hall. }
  assert (∀ cols columns : list string,
            (∃ c, c ∈ cols ∧ c ∉ columns)
            → (∀ c, c ∈ cols → c ∈ columns) → False) as Hno'.
  { intros cols columns (c & Hc & Hn) Hall. by apply Hn, Hall. }
  split; [|split; [|split; [intros c; apply elem_of_missing_columns|]]].
  - destruct (load_data_cases path df) as [[Hex Hl]|[Hall Hl]]; [by split|].
    split; [intros Hex; by destruct (Hno _ Hex Hall)|]. rewrite Hl. discriminate.
  - destruct (load_data_cases path df) as [[Hex Hl]|[Hall Hl]]; [split; by eauto|].
    split; [intros Hex; by destruct (Hno _ Hex Hall)|].
    rewrite Hl. intros [e He]. discriminate.
  - destruct (select_households_cases info info_csv cluster_col sample_households
                clusters) as [[Hex Hs]|[Hall Hs]].
    + assert ((load_lcl_dataset info_csv info blocks_dir disk cluster_col
                 sample_households clusters start_date end_date).2
              = Raise (ValueError_missing_columns info_csv
                         (missing_columns ["LCLid"; "file"; cluster_col]
                            (info_columns info)))) as Hl
        by (unfold load_lcl_dataset; by rewrite Hs).
      split; split; by eauto.
    + split; (split; [intros Hex; by destruct (Hno' _ _ Hex Hall)|]).
      * intros Hl. apply load_lcl_dataset_raises in Hl. by destruct (Hs _ _ Hl).
      * intros (table & columns & Hl).
        apply load_lcl_dataset_raises in Hl. by destruct (Hs _ _ Hl).
Qed.

End SchemaErrors.

(* ------------------------------------------------------------------ *)
(** ** Blocks and empty runs *)

Lemma omap_cons {A B} (f : A → option B) (x : A) (l : list A) :
  omap f (x :: l) = match f x with Some y => y :: omap f l | None => omap f l end.
Proof. reflexivity. Qed.

(** The loop over the blocks warns once for each missing file, in order, and
    appends the frame of every other block whose rows concern the selected
    households: a missing block stops nothing. *)
Lemma load_blocks_spec disk blocks_dir info start_date end_date blocks :
  load_blocks disk blocks_dir info start_date end_date blocks
  = (missing_block_warning blocks_dir
       <$> filter (λ b, disk !! block_path blocks_dir b.1 = None) blocks,
     omap (frame_of_block disk blocks_dir info start_date end_date) blocks).
Proof.
  induction blocks as [|[block_file ids] blocks IH]; [done|].
  cbn [load_blocks]. rewrite IH, filter_cons, omap_cons. cbn [fst].
  assert (frame_of_block disk blocks_dir info start_date end_date (block_file, ids)
          = df_block ← disk !! block_path blocks_dir block_file;
            block_frame info start_date end_date ids df_block) as -> by done.
  destruct (disk !! block_path blocks_dir block_file) as [df_block|] eqn:Hd.
  - rewrite decide_False by done. cbn [mbind option_bind].
    by destruct (block_frame info start_date end_date ids df_block).
  - by rewrite decide_True by done.
Qed.

Section EmptyRuns.
Context `{Sampler}.

Lemma load_lcl_dataset_spec info_csv info blocks_dir disk cluster_col
    sample_households clusters start_date end_date listed :
  select_households info info_csv cluster_col sample_households clusters = Ok listed →
  load_lcl_dataset info_csv info blocks_dir disk cluster_col sample_households
    clusters start_date end_date
  = (missing_block_warning blocks_dir
       <$> filter (λ b, disk !! block_path blocks_dir b.1 = None) (blocks_of listed),
     match omap (frame_of_block disk blocks_dir listed start_date end_date)
             (blocks_of listed) with
     | [] => Raise (SystemExit "No data loaded from blocks; check paths and filters.")
     | frames => Ok (mjoin frames)
     end).
Proof.
  intros Hs. unfold load_lcl_dataset. rewrite Hs, load_blocks_spec.
  by destruct (omap _ _).
Qed.

Lemma main_of_load args w :
  main args w =
    match load args w with
    | (out, Raise e) => (out, Raise e)
    | (out, Ok []) => (out, Raise (SystemExit "No data after filtering; check inputs."))
    | (out, Ok df) =>
        let profiles := compute_profiles (add_time_features df) in
        match plot_profiles profiles (Args.output_dir args) with
        | (plots, Raise e) =>
            ((out ++ [SaveProfiles (Args.output_dir args) profiles]) ++ plots, Raise e)
        | (plots, Ok _) =>
            ((out ++ [SaveProfiles (Args.output_dir args) profiles])
               ++ plots ++ [Print "Done."], Ok ())
        end
    end.
Proof. unfold main. by destruct (load args w) as [out [[|r df]|e]]. Qed.

(** C7, as amended: in a multi-block run, every referenced block whose
    file is missing yields one warning and the frames of the remaining
    blocks are still loaded; when no block yields a record, the run ends
    in a fatal exit before anything is aggregated or written, with
    "No data loaded from blocks" when no frame was appended and with
    "No data after filtering" when only empty frames were. *)
Theorem missing_blocks_warn_and_empty_runs_exit
    (args : Args.Namespace) (w : World)
    (info_csv blocks_dir : string) (info : InfoTable) (listed : list InfoRow) :
  let warnings :=
    missing_block_warning blocks_dir
    <$> filter (λ b, block_files w !! block_path blocks_dir b.1 = None)
          (blocks_of listed) in
  let frames :=
    omap (frame_of_block (block_files w) blocks_dir listed
            (Args.start_date args) (Args.end_date args)) (blocks_of listed) in
  Args.lcl_info_csv args = Some info_csv →
  Args.lcl_blocks_dir args = Some blocks_dir →
  info_files w !! info_csv = Some info →
  select_households info info_csv (Args.lcl_cluster_col args)
    (Args.sample_households args) (parse_clusters (Args.clusters args)) = Ok listed →
  load args w
  = (warnings,
     match frames with
     | [] => Raise (SystemExit "No data loaded from blocks; check paths and filters.")
     | _ => Ok (mjoin frames)
     end)
  ∧ (mjoin frames = [] →
     main args w
     = (warnings,
        Raise (SystemExit
                 match frames with
                 | [] => "No data loaded from blocks; check paths and filters."
                 | _ => "No data after filtering; check inputs."
                 end))).
Proof.
  intros warnings frames Hinfo Hdir Hfile Hsel.
  assert (load args w
          = (warnings,
             match frames with
             | [] => Raise (SystemExit "No data loaded from blocks; check paths and filters.")
             | _ => Ok (mjoin frames)
             end)) as Hload.
  { unfold load. rewrite Hinfo, Hdir. unfold read_csv. rewrite Hfile.
    rewrite (load_lcl_dataset_spec _ _ _ _ _ _ _ _ _ listed Hsel).
    fold warnings frames. by destruct frames. }
  split; [exact Hload|]. intros Hempty.
  rewrite main_of_load, Hload. destruct frames as [|f frames']; [done|].
  by rewrite Hempty.
Qed.

End EmptyRuns.

Section NoData.
Context `{Sampler}.

Lemma load_blocks_prints disk blocks_dir info start_date end_date blocks :
  Forall is_print (load_blocks disk blocks_dir info start_date end_date blocks).1.
Proof.
  rewrite load_blocks_spec. cbn [fst]. apply Forall_fmap, Forall_forall.
  by intros b _.
Qed.

Lemma load_lcl_dataset_prints info_csv info blocks_dir disk cluster_col
    sample_households clusters start_date end_date :
  Forall is_print
    (load_lcl_dataset info_csv info blocks_dir disk cluster_col sample_households
       clusters start_date end_date).1.
Proof.
  unfold load_lcl_dataset.
  destruct (select_households _ _ _ _ _) as [listed|e]; [|constructor].
  pose proof (load_blocks_prints disk blocks_dir listed start_date end_date
                (blocks_of listed)) as Hp.
  destruct (load_blocks _ _ _ _ _ _) as [out [|f frames]]; exact Hp.
Qed.

Lemma load_prints args w : Forall is_print (load args w).1.
Proof.
  unfold load.
  destruct (Args.lcl_info_csv args) as [info_csv|],
           (Args.lcl_blocks_dir args) as [blocks_dir|];
    try (destruct (Args.consumption_csv args); constructor).
  destruct (read_csv _ _); [apply load_lcl_dataset_prints|constructor].
Qed.

(** Filtering to a cluster that no record belongs to leaves no record. *)
Lemma filter_data_absent_cluster (df : DataFrame) (n : option Z) (c : string)
    start_date end_date :
  (∀ r, r ∈ df → cluster_id r ≠ c) →
  (∀ k, n = Some k → 0 ≤ k) →
  filter_data df n (Some [c]) start_date end_date = Ok [].
Proof.
  intros Hc Hn. rewrite filter_data_unfold. cbv zeta.
  assert (filter (λ r, cluster_ok (Some [c]) r ∧ date_ok start_date end_date r) df = [])
    as ->.
  { apply filter_none. intros r Hr [Hcl _]. simpl in Hcl.
    apply list_elem_of_singleton in Hcl. by apply (Hc r). }
  destruct n as [k|]; [|done].
  destruct (Z.eqb_spec k 0); [done|].
  specialize (Hn k eq_refl).
  replace (Z.min k (len (households []))) with 0 by (vm_compute len; lia).
  rewrite sample_Ok by (vm_compute; split; discriminate).
  reflexivity.
Qed.

(** C9: when no record is left for the check of [main] (the filtered
    record set is empty, or the multi-block adapter found no household or
    no frame), the run ends in a fatal exit that names the lack of data,
    on the generic path with "No data after filtering; check inputs.";
    the run is not a success and has written nothing. *)
Theorem no_records_is_fatal (args : Args.Namespace) (w : World) :
  no_records (load args w).2 →
  (∃ msg, main args w = ((load args w).1, Raise (SystemExit msg))
          ∧ msg ∈ [ "No data after filtering; check inputs.";
                    "No households remain after filtering by cluster.";
                    "No data loaded from blocks; check paths and filters." ]
          ∧ ((load args w).2 = Ok [] → msg = "No data after filtering; check inputs."))
  ∧ (main args w).2 ≠ Ok ()
  ∧ Forall is_print (main args w).1.
Proof.
  intros Hno. pose proof (load_prints args w) as Hp.
  rewrite main_of_load. destruct (load args w) as [out loaded]. cbn [fst snd] in *.
  destruct Hno as [->|[->| ->]].
  - split; [|by split]. eexists. split; [reflexivity|]. split; [|done]. by left.
  - split; [|by split]. eexists. split; [reflexivity|]. split; [|done].
    right. by left.
  - split; [|by split]. eexists. split; [reflexivity|]. split; [|done].
    right. right. by left.
Qed.

End NoData.

(* ------------------------------------------------------------------ *)
(** ** Runs *)

Lemma no_records_is_fatal_witness :
  (∃ msg, main (H:=prefix_sampler) absent_cluster_args generic_world
          = ((load (H:=prefix_sampler) absent_cluster_args generic_world).1,
             Raise (SystemExit msg))
          ∧ msg ∈ [ "No data after filtering; check inputs.";
                    "No households remain after filtering by cluster.";
                    "No data loaded from blocks; check paths and filters." ]
          ∧ ((load (H:=prefix_sampler) absent_cluster_args generic_world).2 = Ok [] →
             msg = "No data after filtering; check inputs."))
  ∧ (main (H:=prefix_sampler) absent_cluster_args generic_world).2 ≠ Ok ()
  ∧ Forall is_print (main (H:=prefix_sampler) absent_cluster_args generic_world).1.
Proof.
  apply (no_records_is_fatal (H:=prefix_sampler) absent_cluster_args generic_world).
  left. vm_compute. reflexivity.
Defined.

Example absent_cluster_run :
  main (H:=prefix_sampler) absent_cluster_args generic_world
  = ([], Raise (SystemExit "No data after filtering; check inputs.")).
Proof. vm_compute. reflexivity. Qed.

Example lcl_absent_cluster_run :
  main (H:=prefix_sampler) (lcl_args (Some "Z") None) one_block_world
  = ([], Raise (SystemExit "No households remain after filtering by cluster.")).
Proof. vm_compute. reflexivity. Qed.

Example lcl_missing_block_run :
  main (H:=prefix_sampler) (lcl_args None None) one_block_world
  = ([ Print "Warning: block file missing: blocks/block_1.csv";
       SaveProfiles "outputs/cluster_profiles"
         (mkPivot ["weekday_kwh"] [mkPivotRow "A" 0 [Some 1%Q]]) ],
     Raise (KeyError "weekend_kwh")).
Proof. vm_compute. reflexivity. Qed.

(** C7, as stated, fails when the only block that exists holds records that
    the date filter drops: no block contributes a record, the adapter
    returns an empty record set instead of leaving with "No data loaded",
    and the run ends with "No data after filtering". *)
Lemma empty_frames_are_not_no_data_loaded :
  load_lcl_dataset (H:=prefix_sampler) "info.csv" lcl_info "blocks"
    (block_files one_block_world) "Acorn_grouped" None None
    (Some (Time.date 2014 1 1)) None
  = ([Print "Warning: block file missing: blocks/block_1.csv"], Ok [])
  ∧ main (H:=prefix_sampler) (lcl_args None (Some (Time.date 2014 1 1))) one_block_world
    = ([Print "Warning: block file missing: blocks/block_1.csv"],
       Raise (SystemExit "No data after filtering; check inputs.")).
Proof. split; vm_compute; reflexivity. Qed.

Lemma missing_blocks_warn_and_empty_runs_exit_witness :
  load (H:=prefix_sampler) (lcl_args None None) no_block_world
  = ([ Print "Warning: block file missing: blocks/block_0.csv";
       Print "Warning: block file missing: blocks/block_1.csv" ],
     Raise (SystemExit "No data loaded from blocks; check paths and filters."))
  ∧ main (H:=prefix_sampler) (lcl_args None None) no_block_world
    = ([ Print "Warning: block file missing: blocks/block_0.csv";
         Print "Warning: block file missing: blocks/block_1.csv" ],
       Raise (SystemExit "No data loaded from blocks; check paths and filters.")).
Proof.
  destruct (missing_blocks_warn_and_empty_runs_exit (H:=prefix_sampler)
              (lcl_args None None) no_block_world "info.csv" "blocks" lcl_info
              (info_rows lcl_info))
    as [Hload Hmain].
  - reflexivity.
  - reflexivity.
  - vm_compute. reflexivity.
  - vm_compute. reflexivity.
  - split.
    + rewrite Hload. vm_compute. reflexivity.
    + rewrite Hmain; vm_compute; reflexivity.
Defined.

(** 1 and 2 kWh average to 1.5, exactly and in float64. *)
Example grouped_two_records :
  grouped two_records = [mkPoint "A" false 1 (3 # 2)]
  ∧ grouped_float64 two_records = [mkPoint64 "A" false 1 (F64.of_Q (3 # 2))].
Proof. split; vm_compute; reflexivity. Qed.

(** The float64 averages of the two orders of the three readings, and
    what plain summation gives for them. *)
Example grouped_float64_readings :
  grouped_float64 low_low_high = [mkPoint64 "A" false 1 above_one_fifth]
  ∧ grouped_float64 low_high_low = [mkPoint64 "A" false 1 below_one_fifth]
  ∧ F64.div (plain_sum (F64.of_Q <$> [1 # 10; 1 # 10; 4 # 10]%Q)) (F64.of_Z 3)
    = above_one_fifth
  ∧ F64.div (plain_sum (F64.of_Q <$> [1 # 10; 4 # 10; 1 # 10]%Q)) (F64.of_Z 3)
    = below_one_fifth.
Proof. repeat split; vm_compute; reflexivity. Qed.

(** A permutation of the input that changes the points: the three readings
    0.1, 0.1, 0.4 average to 0.20000000000000004, and in the order 0.1, 0.4,
    0.1 to 0.19999999999999998. *)
Lemma float_mean_depends_on_row_order :
  low_low_high ≡ₚ low_high_low
  ∧ avg_consumption_kwh64 <$> grouped_float64 low_low_high = [above_one_fifth]
  ∧ avg_consumption_kwh64 <$> grouped_float64 low_high_low = [below_one_fifth]
  ∧ grouped_float64 low_high_low ≠ grouped_float64 low_low_high.
Proof.
  split; [vm_compute; apply perm_skip, perm_swap|].
  repeat split; vm_compute; [reflexivity..|discriminate].
Qed.

Lemma grouped_float64_is_mean_by_key_witness :
  two_clusters false ≡ₚ two_clusters true
  ∧ grouped_float64 (two_clusters true) = grouped_float64 (two_clusters false)
  ∧ point64_key <$> grouped_float64 (two_clusters false)
    = [("A", false, 1); ("B", false, 1)]
  ∧ Forall (λ p,
      let members :=
        records_of_key (two_clusters false)
          (point64_cluster_id p) (point64_is_weekend p) (point64_slot p) in
      members ≠ []
      ∧ avg_consumption_kwh64 p
        = F64.div (group_sum ((F64.of_Q ∘ consumption_kwh ∘ base) <$> members))
            (F64.of_Z (Z.of_nat (length members))))
      (grouped_float64 (two_clusters false))
  ∧ avg_consumption_kwh64 <$> grouped_float64 (two_clusters false)
    = [above_one_fifth;
       F64.div (F64.add (F64.of_Q (7 # 10)) (F64.of_Q (2 # 10))) (F64.of_Z 2)].
Proof.
  assert (two_clusters false ≡ₚ two_clusters true) as Hp.
  { unfold two_clusters. etransitivity; [apply Permutation_app_comm|].
    apply Permutation_app; [|done]. vm_compute. apply perm_swap. }
  destruct (grouped_float64_is_mean_by_key (two_clusters false) (two_clusters true) Hp)
    as (_ & _ & Hmean & _ & _ & Hsame).
  split; [exact Hp|]. split; [|split; [|split]].
  - apply Hsame. intros c w s. unfold records_of_key, two_clusters.
    rewrite !filter_app.
    assert (Forall (λ a, cluster_id (base a) = "A") low_low_high) as HA
      by (vm_compute; repeat constructor).
    destruct (decide (c = "A")) as [->|Hc].
    + left. rewrite !(filter_none _ (cluster_B_pair _)); [by rewrite app_nil_r| |].
      * intros a Ha. vm_compute in Ha.
        apply elem_of_cons in Ha as [->|Ha]; [by intros [[=] _]|].
        apply list_elem_of_singleton in Ha as ->. by intros [[=] _].
      * intros a Ha. vm_compute in Ha.
        apply elem_of_cons in Ha as [->|Ha]; [by intros [[=] _]|].
        apply list_elem_of_singleton in Ha as ->. by intros [[=] _].
    + right. rewrite (filter_none _ low_low_high).
      * etransitivity; [apply length_filter|]. by vm_compute.
      * intros a Ha [Hca _]. rewrite Forall_forall in HA.
        apply Hc. rewrite <- Hca. by apply HA.
  - vm_compute. reflexivity.
  - exact Hmean.
  - vm_compute. reflexivity.
Defined.

(** The end-to-end scenario: four households with a constant 1 kWh over one
    week, filtered to cluster A, give 48 rows with both averages at 1. *)
Example constant_week_profiles :
  (df ← filter_data (H:=prefix_sampler) four_households None (Some ["A"]) None None;
   Ok (compute_profiles (add_time_features df)))
  = Ok (mkPivot ["weekday_kwh"; "weekend_kwh"]
          ((λ s : nat, mkPivotRow "A" (Z.of_nat s) [Some 1%Q; Some 1%Q]) <$> seq 0 48)).
Proof. vm_compute. reflexivity. Qed.

(** Another sampler draws other households, and as many. *)
Example samplers_draw_two_households :
  (df ← filter_data (H:=prefix_sampler) three_households (Some 2) None None None;
   Ok (households df)) = Ok ["H1"; "H2"]
  ∧ (df ← filter_data (H:=suffix_sampler) three_households (Some 2) None None None;
     Ok (households df)) = Ok ["H2"; "H3"].
Proof. split; vm_compute; reflexivity. Qed.

(* ================================================================== *)
(** * Further properties of the pipeline *)

(* ------------------------------------------------------------------ *)
(** ** The Filter, call by call *)

Lemma filter_all {A} (P : A → Prop) `{!∀ x, Decision (P x)} (l : list A) :
  (∀ x, x ∈ l → P x) → filter P l = l.
Proof.
  induction l as [|a l IH]; intros Hall; [done|].
  rewrite filter_cons_True by (apply Hall; by left).
  f_equal. apply IH. intros x Hx. apply Hall. by right.
Qed.

Section FilterCalls.
Context `{Sampler}.

(** The three ways a call of [filter_data] ends. *)
Lemma filter_data_cases (df : DataFrame) n clusters start_date end_date :
  let remaining :=
    filter (λ r, cluster_ok clusters r ∧ date_ok start_date end_date r) df in
  ((n = None ∨ n = Some 0)
   ∧ filter_data df n clusters start_date end_date = Ok remaining)
  ∨ (∃ k, n = Some k ∧ k < 0
          ∧ filter_data df n clusters start_date end_date
            = Raise ValueError_negative_sample)
  ∨ (∃ k sampled,
       n = Some k ∧ 1 ≤ k
       ∧ NoDup sampled
       ∧ (∀ h, h ∈ sampled → h ∈ households remaining)
       ∧ len sampled = Z.min k (len (households remaining))
       ∧ filter_data df n clusters start_date end_date
         = Ok (filter (λ r, isin sampled (household_id r)) remaining)).
Proof.
  intros remaining. rewrite filter_data_unfold. cbv zeta. fold remaining.
  destruct n as [k|]; [|left; split; [by left|done]].
  destruct (Z.eqb_spec k 0) as [->|Hk]; [left; split; [by right|done]|].
  right. destruct (Z.lt_ge_cases k 0) as [Hneg|Hpos].
  - left. exists k. repeat split; [done|].
    rewrite sample_negative; [done|]. pose proof (len_nonneg (households remaining)). lia.
  - right.
    destruct (sample_spec (households remaining) (Z.min k (len (households remaining))))
      as (sampled & Hs & Hlen & Hsub & Hnd).
    { apply min_sample_range; [lia|apply len_nonneg]. }
    exists k, sampled. rewrite Hs. repeat split; try done; try lia.
    specialize (Hnd _ id). rewrite !list_fmap_id in Hnd.
    apply Hnd, NoDup_drop_duplicates.
Qed.

(** X1: whatever the parameters, a call of [filter_data] that returns has
    only removed records: the output is a sublist of the input, in the
    order of the input, and every record kept passes the cluster allow-list
    and lies within the date bounds. *)
Theorem filter_data_only_removes (df out : DataFrame) n clusters start_date end_date :
  filter_data df n clusters start_date end_date = Ok out →
  out `sublist_of` df
  ∧ Forall (λ r, cluster_ok clusters r ∧ date_ok start_date end_date r) out.
Proof.
  intros Hout.
  destruct (filter_data_cases df n clusters start_date end_date)
    as [[_ Hr]|[(k & _ & _ & Hr)|(k & sampled & _ & _ & _ & _ & _ & Hr)]];
    rewrite Hr in Hout; [|discriminate|]; injection Hout as <-.
  - split; [apply sublist_filter|].
    apply Forall_forall. intros r Hr'. by apply list_elem_of_filter in Hr' as [? _].
  - split; [etransitivity; apply sublist_filter|].
    apply Forall_forall. intros r Hr'.
    apply list_elem_of_filter in Hr' as [_ Hr']. by apply list_elem_of_filter in Hr' as [? _].
Qed.

(** X2: sampling keeps or drops a household as a whole: when a record of a
    household is in the output, so is every record of that household that
    passes the cluster and date filters. *)
Theorem filter_data_keeps_whole_households
    (df out : DataFrame) n clusters start_date end_date (r r' : ConsumptionRecord) :
  filter_data df n clusters start_date end_date = Ok out →
  r ∈ out →
  r' ∈ df →
  cluster_ok clusters r' ∧ date_ok start_date end_date r' →
  household_id r' = household_id r →
  r' ∈ out.
Proof.
  intros Hout Hr Hr' Hok Hh.
  destruct (filter_data_cases df n clusters start_date end_date)
    as [[_ Hres]|[(k & _ & _ & Hres)|(k & sampled & _ & _ & _ & _ & _ & Hres)]];
    rewrite Hres in Hout; [|discriminate|]; injection Hout as <-.
  - by apply list_elem_of_filter.
  - apply list_elem_of_filter in Hr as [Hin _].
    apply list_elem_of_filter. split; [by rewrite Hh|]. by apply list_elem_of_filter.
Qed.

End FilterCalls.

Section FilterAgain.
Context `{Sampler}.

Lemma filter_data_no_sampling (df : DataFrame) clusters start_date end_date :
  filter_data df None clusters start_date end_date
  = Ok (filter (λ r, cluster_ok clusters r ∧ date_ok start_date end_date r) df).
Proof. by rewrite filter_data_unfold. Qed.

Lemma filter_data_kept (df out : DataFrame) n clusters start_date end_date r :
  filter_data df n clusters start_date end_date = Ok out →
  r ∈ out →
  cluster_ok clusters r ∧ date_ok start_date end_date r.
Proof.
  intros Hout Hr.
  destruct (filter_data_cases df n clusters start_date end_date)
    as [[_ Hres]|[(k & _ & _ & Hres)|(k & sampled & _ & _ & _ & _ & _ & Hres)]];
    rewrite Hres in Hout; [|discriminate|]; injection Hout as <-.
  - by apply list_elem_of_filter in Hr as [? _].
  - apply list_elem_of_filter in Hr as [_ Hr]. by apply list_elem_of_filter in Hr as [? _].
Qed.

(** X3: filtering is idempotent: the output of a call of [filter_data],
    filtered again with the same parameters, comes back unchanged, the
    household sample included. *)
Theorem filter_data_idempotent (df out : DataFrame) n clusters start_date end_date :
  filter_data df n clusters start_date end_date = Ok out →
  filter_data out n clusters start_date end_date = Ok out.
Proof.
  intros Hout.
  set (ok := λ r, cluster_ok clusters r ∧ date_ok start_date end_date r).
  assert (filter ok out = out) as Hsame.
  { apply filter_all. intros r Hr. by eapply filter_data_kept. }
  destruct (filter_data_cases df n clusters start_date end_date)
    as [[Hn Hres]|[(k & _ & _ & Hres)|(k & sampled & -> & Hk & Hnd & Hsub & Hlen & Hres)]];
    rewrite Hres in Hout; [|discriminate|]; injection Hout as Hout.
  - destruct (filter_data_cases out n clusters start_date end_date)
      as [[_ Hres']|[(k & -> & Hneg & _)|(k & sampled & -> & Hk & _)]].
    + rewrite Hres'. fold ok. by rewrite Hsame.
    + destruct Hn as [|[= ->]]; [done|lia].
    + destruct Hn as [|[= ->]]; [done|lia].
  - destruct (filter_data_cases out (Some k) clusters start_date end_date)
      as [[[|[= ->]] _]|[(k' & [= <-] & Hneg & _)
                        |(k' & sampled' & [= <-] & _ & Hnd' & Hsub' & Hlen' & Hres')]];
      try done; try lia.
    rewrite Hres'. fold ok in Hsub', Hlen' |- *. rewrite Hsame in Hsub', Hlen' |- *.
    f_equal. apply filter_all. intros r Hr. apply isin_Is_true.
    assert (households out ≡ₚ sampled) as Hperm
      by (rewrite <- Hout; by apply households_of_sampled).
    assert (sampled' ≡ₚ households out) as Hperm'.
    { apply submseteq_length_Permutation.
      - by apply NoDup_submseteq.
      - unfold len in *. rewrite Hperm in Hlen' |- *. lia. }
    rewrite Hperm'. apply elem_of_households. by exists r.
Qed.

End FilterAgain.

Section FilterEdges.
Context `{Sampler}.

(** X4: a negative sample size is not clamped: [min] passes it on to
    [sample], which refuses it, so [filter_data] raises on every record set,
    and so does the multi-block adapter as soon as the household list has
    the required columns and a row left by the cluster filter. *)
Theorem negative_sample_size_raises
    (df : DataFrame) (k : Z) clusters start_date end_date
    (info : InfoTable) (info_csv blocks_dir cluster_col : string)
    (disk : gmap string (list BlockRow)) :
  k < 0 →
  filter_data df (Some k) clusters start_date end_date = Raise ValueError_negative_sample
  ∧ (missing_columns ["LCLid"; "file"; cluster_col] (info_columns info) = ∅ →
     match clusters with
     | Some (c :: cs) => filter (λ i, isin (c :: cs) (cluster i)) (info_rows info)
     | _ => info_rows info
     end ≠ [] →
     load_lcl_dataset info_csv info blocks_dir disk cluster_col (Some k) clusters
       start_date end_date
     = ([], Raise ValueError_negative_sample)).
Proof.
  intros Hk. split.
  - destruct (filter_data_cases df (Some k) clusters start_date end_date)
      as [[[|[= ->]] _]|[(k' & [= <-] & _ & Hres)|(k' & sampled & [= <-] & Hpos & _)]];
      try done; lia.
  - intros Hcols Hne. unfold load_lcl_dataset, select_households. cbv zeta.
    rewrite decide_False by (by intros []).
    destruct (match clusters with Some (c :: cs) => _ | _ => _ end) as [|i listed] eqn:Hl;
      [done|].
    destruct (Z.eqb_spec k 0); [lia|].
    rewrite sample_negative; [done|].
    pose proof (len_nonneg (i :: listed)). lia.
Qed.

(** X5: the three filters compose: filtering by cluster, then by date, then
    sampling, each in a call of its own, is the single call with all the
    parameters; so is filtering by date first and by cluster and sample
    size second. *)
Theorem filter_data_in_separate_calls (df : DataFrame) n clusters start_date end_date :
  (df1 ← filter_data df None clusters None None;
   df2 ← filter_data df1 None None start_date end_date;
   filter_data df2 n None None None)
  = filter_data df n clusters start_date end_date
  ∧ (df1 ← filter_data df None None start_date end_date;
     filter_data df1 n clusters None None)
    = filter_data df n clusters start_date end_date.
Proof.
  assert (filter (λ r, cluster_ok None r ∧ date_ok None None r)
            (filter (λ r, cluster_ok None r ∧ date_ok start_date end_date r)
               (filter (λ r, cluster_ok clusters r ∧ date_ok None None r) df))
          = filter (λ r, cluster_ok clusters r ∧ date_ok start_date end_date r) df)
    as Hthree.
  { rewrite !list_filter_filter. apply list_filter_iff. intros r.
    unfold date_ok, cluster_ok. tauto. }
  assert (filter (λ r, cluster_ok clusters r ∧ date_ok None None r)
            (filter (λ r, cluster_ok None r ∧ date_ok start_date end_date r) df)
          = filter (λ r, cluster_ok clusters r ∧ date_ok start_date end_date r) df)
    as Htwo.
  { rewrite !list_filter_filter. apply list_filter_iff. intros r.
    unfold date_ok, cluster_ok. tauto. }
  rewrite !filter_data_no_sampling. cbn [mbind result_bind bind].
  rewrite !filter_data_no_sampling. cbn [mbind result_bind bind].
  rewrite !(filter_data_unfold _ n). cbv zeta.
  by rewrite Hthree, Htwo.
Qed.

End FilterEdges.

(* ------------------------------------------------------------------ *)
(** ** Time features across days *)

Lemma dt_minute_shift t days :
  Time.dt_minute (t + Time.Timedelta_days days) = Time.dt_minute t.
Proof.
  unfold Time.dt_minute, Time.Timedelta_days, Time.ns_per_day, Time.ns_per_hour.
  replace (t + days * (24 * (60 * Time.ns_per_minute)))
    with (t + (days * 1440) * Time.ns_per_minute) by ring.
  rewrite Z.div_add by (unfold Time.ns_per_minute; lia).
  replace (t / Time.ns_per_minute + days * 1440)
    with (t / Time.ns_per_minute + (days * 24) * 60) by ring.
  apply Z_mod_plus_full.
Qed.

Lemma dt_hour_shift t days :
  Time.dt_hour (t + Time.Timedelta_days days) = Time.dt_hour t.
Proof.
  unfold Time.dt_hour, Time.Timedelta_days, Time.ns_per_day.
  replace (t + days * (24 * Time.ns_per_hour))
    with (t + (days * 24) * Time.ns_per_hour) by ring.
  rewrite Z.div_add by (unfold Time.ns_per_hour, Time.ns_per_minute; lia).
  apply Z_mod_plus_full.
Qed.

Lemma dt_dayofweek_shift t weeks :
  Time.dt_dayofweek (t + Time.Timedelta_days (7 * weeks)) = Time.dt_dayofweek t.
Proof.
  unfold Time.dt_dayofweek, Time.Timedelta_days.
  rewrite Z.div_add
    by (unfold Time.ns_per_day, Time.ns_per_hour, Time.ns_per_minute; lia).
  replace (t / Time.ns_per_day + 7 * weeks + 3)
    with (t / Time.ns_per_day + 3 + weeks * 7) by ring.
  apply Z_mod_plus_full.
Qed.

(** X6: in every record that [add_time_features] returns, the slot stands
    for the clock time of the record: the hour is [slot div 2], the minute
    is 30 times [slot mod 2], and the slot counts the half hours since
    midnight. *)
Theorem slot_is_clock_time (df : DataFrame) :
  Forall slot_clock (add_time_features df).
Proof.
  induction df as [|r df IH]; [constructor|].
  rewrite add_time_features_cons.
  destruct (decide _) as [Hin|]; [|exact IH].
  constructor; [|exact IH]. apply minute_aligned_iff in Hin.
  unfold slot_clock. simpl.
  pose proof (dt_hour_range (timestamp r)).
  destruct Hin as [-> | ->];
    [change (0 / 30) with 0 | change (30 / 30) with 1];
    Z.div_mod_to_equations; lia.
Qed.

(** X7: the time features repeat: a record set read any number of days
    later gets the same slots and loses the same non-aligned records, and
    read any number of weeks later it gets the same weekend flags too. *)
Theorem time_features_repeat (df : DataFrame) (days weeks : Z) :
  slot <$> add_time_features (shift_days days <$> df) = slot <$> add_time_features df
  ∧ add_time_features (shift_days (7 * weeks) <$> df)
    = (λ a, mkAugmented (shift_days (7 * weeks) (base a)) (is_weekend a) (slot a))
      <$> add_time_features df.
Proof.
  split.
  - induction df as [|r df IH]; [done|].
    rewrite fmap_cons, !add_time_features_cons. simpl timestamp.
    rewrite dt_minute_shift, dt_hour_shift.
    destruct (decide _); [|exact IH]. rewrite !fmap_cons. simpl. by rewrite IH.
  - induction df as [|r df IH]; [done|].
    rewrite fmap_cons, !add_time_features_cons. simpl timestamp.
    rewrite dt_minute_shift, dt_hour_shift, dt_dayofweek_shift.
    destruct (decide _); [|exact IH]. rewrite fmap_cons. simpl. by rewrite IH.
Qed.

(* ------------------------------------------------------------------ *)
(** ** The wide table of a record set *)

#[global] Instance aligned_dec r : Decision (aligned r).
Proof. unfold aligned. apply _. Defined.

#[global] Instance on_weekend_dec r : Decision (on_weekend r).
Proof. unfold on_weekend. apply _. Defined.

#[global] Typeclasses Opaque aligned on_weekend.

Lemma elem_of_add_time_features (df : DataFrame) (a : AugmentedRecord) :
  a ∈ add_time_features df ↔
    ∃ r, r ∈ df ∧ aligned r
         ∧ a = mkAugmented r (bool_decide (on_weekend r))
                 (Time.dt_hour (timestamp r) * 2 + Time.dt_minute (timestamp r) / 30).
Proof.
  unfold add_time_features. rewrite list_elem_of_filter, list_elem_of_fmap. split.
  - intros [Hm (r & -> & Hr)]. exists r. split; [done|]. split; [|done].
    by apply minute_aligned_iff.
  - intros (r & Hr & Hal & ->). split; [by apply minute_aligned_iff|]. by exists r.
Qed.

Lemma NoDup_bounded_length (l : list Z) (n : nat) :
  NoDup l → (∀ x, x ∈ l → 0 ≤ x < Z.of_nat n) → (length l ≤ n)%nat.
Proof.
  intros Hnd Hb.
  assert (l ⊆+ Z.of_nat <$> seq 0 n) as Hsub.
  { apply NoDup_submseteq; [done|]. intros x Hx. apply list_elem_of_fmap.
    exists (Z.to_nat x). destruct (Hb x Hx). split; [lia|]. apply elem_of_seq. lia. }
  apply submseteq_length in Hsub. by rewrite length_fmap, length_seq in Hsub.
Qed.

(** X9: every row of the table computed from a record set stands for an
    aligned record of that set, with that record's cluster and slot; its
    slot lies between 0 and 47, and no cluster has more than 48 rows. *)
Theorem profile_rows_come_from_aligned_records (df : DataFrame) (c : string) :
  let profiles := compute_profiles (add_time_features df) in
  Forall (λ r, row_of_record df r ∧ 0 ≤ row_slot r ≤ 47) (rows profiles)
  ∧ (length (filter (λ r, row_cluster_id r = c) (rows profiles)) ≤ 48)%nat.
Proof.
  cbv zeta.
  destruct (compute_profiles_rows_and_cells (add_time_features df))
    as (-> & Hnd & Hkeys & _ & _).
  assert (∀ r, r ∈ rows (pivot_table (grouped (add_time_features df))) →
               row_of_record df r ∧ 0 ≤ row_slot r ≤ 47) as Hrows.
  { intros r Hr.
    destruct (proj1 (Hkeys (row_key r))) as (a & Ha & Hkey);
      [by apply list_elem_of_fmap_2|].
    apply elem_of_add_time_features in Ha as (rec & Hrec & Hal & ->).
    injection Hkey as Hc Hs. simpl in Hc, Hs. split.
    - exists rec. by repeat split.
    - rewrite <- Hs. apply slot_range. }
  split; [by apply Forall_forall|].
  set (t := rows (pivot_table (grouped (add_time_features df)))) in *.
  rewrite <- (length_fmap row_slot). apply NoDup_bounded_length.
  - apply NoDup_fmap_2_strong; [|apply NoDup_filter; by apply NoDup_fmap_1 in Hnd].
    intros r1 r2 Hr1 Hr2 Hs.
    apply list_elem_of_filter in Hr1 as [Hc1 Hr1], Hr2 as [Hc2 Hr2].
    apply (NoDup_fmap_1 row_key) in Hnd as Hnd'.
    assert (row_key r1 = row_key r2) as Hk by (unfold row_key; congruence).
    destruct (proj1 (list_elem_of_lookup t r1) Hr1) as [i1 Hi1].
    destruct (proj1 (list_elem_of_lookup t r2) Hr2) as [i2 Hi2].
    assert (i1 = i2).
    { eapply (NoDup_lookup (row_key <$> t)); [exact Hnd| |].
      - by rewrite list_lookup_fmap, Hi1.
      - by rewrite list_lookup_fmap, Hi2, Hk. }
    congruence.
  - intros x Hx. apply list_elem_of_fmap in Hx as (r & -> & Hr).
    apply list_elem_of_filter in Hr as [_ Hr]. destruct (Hrows r Hr) as [_ ?]. lia.
Qed.

(* ------------------------------------------------------------------ *)
(** ** The order of the value columns *)

#[global] Instance bool_le_total : Total bool_le.
Proof. intros [] []; unfold bool_le; simpl; auto. Qed.




(* ------------------------------------------------------------------ *)
(** ** Plots and the end of a run *)

Lemma sorted_unique_ext `{Countable A} (le : relation A)
    `{∀ x y, Decision (le x y)} (l l' : list A) :
  (∀ x, x ∈ l ↔ x ∈ l') → sorted_unique le l = sorted_unique le l'.
Proof.
  intros Hl. unfold sorted_unique. do 2 f_equal. apply set_eq. intros x.
  by rewrite !elem_of_list_to_set.
Qed.

Lemma sorted_unique_nil `{Countable A} (le : relation A)
    `{∀ x y, Decision (le x y)} (l : list A) :
  sorted_unique le l = [] ↔ l = [].
Proof.
  split.
  - intros Hnil. destruct l as [|x l]; [done|].
    assert (x ∈ sorted_unique le (x :: l)) as Hx
      by (apply elem_of_sorted_unique; by left).
    rewrite Hnil in Hx. by apply elem_of_nil in Hx.
  - intros ->. apply elem_of_nil_inv. intros x.
    rewrite elem_of_sorted_unique. apply not_elem_of_nil.
Qed.

Lemma plot_clusters_spec (profiles : ProfileTable) (out_dir : string) (cs : list string) :
  plot_clusters profiles out_dir cs =
    match cs with
    | [] => ([], Ok ())
    | _ =>
        if decide ("weekday_kwh" ∈ value_columns profiles)
        then if decide ("weekend_kwh" ∈ value_columns profiles)
             then (SavePlot out_dir <$> cs, Ok ())
             else ([], Raise (KeyError "weekend_kwh"))
        else ([], Raise (KeyError "weekday_kwh"))
    end.
Proof.
  induction cs as [|c cs IH]; [done|].
  cbn [plot_clusters]. unfold require_column.
  destruct (decide ("weekday_kwh" ∈ _)); [|done].
  destruct (decide ("weekend_kwh" ∈ _)); [|done].
  rewrite IH. by destruct cs.
Qed.

Lemma plot_profiles_cases (profiles : ProfileTable) (out_dir : string) :
  (rows profiles = [] → plot_profiles profiles out_dir = ([], Ok ()))
  ∧ ("weekday_kwh" ∈ value_columns profiles →
     "weekend_kwh" ∈ value_columns profiles →
     plot_profiles profiles out_dir
     = (SavePlot out_dir <$> sorted_unique str_le (row_cluster_id <$> rows profiles),
        Ok ()))
  ∧ (rows profiles ≠ [] →
     "weekday_kwh" ∉ value_columns profiles →
     plot_profiles profiles out_dir = ([], Raise (KeyError "weekday_kwh")))
  ∧ (rows profiles ≠ [] →
     "weekday_kwh" ∈ value_columns profiles →
     "weekend_kwh" ∉ value_columns profiles →
     plot_profiles profiles out_dir = ([], Raise (KeyError "weekend_kwh"))).
Proof.
  unfold plot_profiles. rewrite plot_clusters_spec.
  set (cs := sorted_unique str_le (row_cluster_id <$> rows profiles)).
  assert (cs = [] ↔ rows profiles = []) as Hcs.
  { unfold cs. rewrite sorted_unique_nil. split; [apply fmap_nil_inv|by intros ->]. }
  repeat split.
  - intros Hr. apply Hcs in Hr. by rewrite Hr.
  - intros Hd He. rewrite !decide_True by done. by destruct cs.
  - intros Hr Hd. rewrite decide_False by done.
    destruct cs; [by destruct Hr; apply Hcs|done].
  - intros Hr Hd He. rewrite decide_True, decide_False by done.
    destruct cs; [by destruct Hr; apply Hcs|done].
Qed.

Lemma plot_clusters_plots (profiles : ProfileTable) (out_dir : string) (cs : list string) :
  (plot_clusters profiles out_dir cs).1 `sublist_of` SavePlot out_dir <$> cs.
Proof.
  rewrite plot_clusters_spec. destruct cs as [|c cs]; [done|].
  repeat destruct (decide _); cbn [fst]; [done|apply sublist_nil_l..].
Qed.

(** X11: [plot_profiles] on a table that has a row and lacks a value column
    raises [KeyError] for the first missing column at the first cluster,
    before any plot is saved; a table without rows gives no plot and no
    error. On every table, a plot that is saved is the plot of a cluster of
    the table, and no cluster is plotted twice. *)
Theorem plot_profiles_outcome (profiles : ProfileTable) (out_dir : string) :
  (rows profiles = [] → plot_profiles profiles out_dir = ([], Ok ()))
  ∧ (rows profiles ≠ [] →
     "weekday_kwh" ∉ value_columns profiles →
     plot_profiles profiles out_dir = ([], Raise (KeyError "weekday_kwh")))
  ∧ (rows profiles ≠ [] →
     "weekday_kwh" ∈ value_columns profiles →
     "weekend_kwh" ∉ value_columns profiles →
     plot_profiles profiles out_dir = ([], Raise (KeyError "weekend_kwh")))
  ∧ Forall (λ ev, ∃ c, c ∈ row_cluster_id <$> rows profiles ∧ ev = SavePlot out_dir c)
      (plot_profiles profiles out_dir).1
  ∧ NoDup (plot_profiles profiles out_dir).1.
Proof.
  destruct (plot_profiles_cases profiles out_dir) as (Hnone & _ & Hwd & Hwe).
  pose proof (plot_clusters_plots profiles out_dir
                (sorted_unique str_le (row_cluster_id <$> rows profiles))) as Hsub.
  fold (plot_profiles profiles out_dir) in Hsub.
  repeat split; try done.
  - apply Forall_forall. intros ev Hev.
    eapply elem_of_sublist in Hev; [|exact Hsub].
    apply list_elem_of_fmap in Hev as (c & -> & Hc). exists c. split; [|done].
    by apply elem_of_sorted_unique in Hc.
  - eapply sublist_NoDup; [|exact Hsub].
    apply NoDup_fmap_2; [by intros c1 c2 [=]|apply NoDup_sorted_unique].
Qed.


Lemma clusters_of_profiles (df : DataFrame) (c : string) :
  c ∈ row_cluster_id <$> rows (compute_profiles (add_time_features df))
  ↔ c ∈ cluster_id <$> filter aligned df.
Proof.
  destruct (compute_profiles_rows_and_cells (add_time_features df))
    as (-> & _ & Hkeys & _ & _).
  rewrite !list_elem_of_fmap. split.
  - intros (r & -> & Hr).
    destruct (proj1 (Hkeys (row_key r))) as (a & Ha & Hkey);
      [by apply list_elem_of_fmap_2|].
    apply elem_of_add_time_features in Ha as (rec & Hrec & Hal & ->).
    injection Hkey as Hc _. exists rec. split; [done|]. by apply list_elem_of_filter.
  - intros (rec & -> & Hrec). apply list_elem_of_filter in Hrec as [Hal Hrec].
    set (a := mkAugmented rec (bool_decide (on_weekend rec))
                (Time.dt_hour (timestamp rec) * 2 + Time.dt_minute (timestamp rec) / 30)).
    assert ((cluster_id rec, slot a) ∈
              row_key <$> rows (pivot_table (grouped (add_time_features df)))) as Hk.
    { apply Hkeys. exists a. split; [|done]. apply elem_of_add_time_features. by exists rec. }
    apply list_elem_of_fmap in Hk as (r & Hkey & Hr). exists r. split; [|done].
    by injection Hkey as -> _.
Qed.


Section RunOutcome.
Context `{Sampler}.


End RunOutcome.


Section RunFailure.
Context `{Sampler}.


(** X14: a sample size at or above the number of households is clamped:
    when at most [N] distinct households are left by the cluster and date
    filters, sampling [N] of them keeps every record those filters left. *)
Theorem sample_size_is_clamped (df : DataFrame) (N : Z) clusters start_date end_date :
  let remaining :=
    filter (λ r, cluster_ok clusters r ∧ date_ok start_date end_date r) df in
  1 ≤ N →
  len (households remaining) ≤ N →
  filter_data df (Some N) clusters start_date end_date = Ok remaining.
Proof.
  intros remaining HN Hlen.
  destruct (filter_data_cases df (Some N) clusters start_date end_date)
    as [[[|[= ->]] _]|[(k & [= <-] & Hneg & _)
                      |(k & sampled & [= <-] & _ & Hnd & Hsub & Hlen' & ->)]];
    try done; try lia.
  fold remaining in Hsub, Hlen' |- *. f_equal. apply filter_all. intros r Hr.
  apply isin_Is_true.
  assert (sampled ≡ₚ households remaining) as Hperm.
  { apply submseteq_length_Permutation; [by apply NoDup_submseteq|].
    unfold len in *. lia. }
  rewrite Hperm. apply elem_of_households. by exists r.
Qed.

End RunFailure.

(* ------------------------------------------------------------------ *)
(** ** The records of the multi-block adapter *)

Lemma elem_of_blocks_of (listed : list InfoRow) (f : string) (ids : list string) :
  (f, ids) ∈ blocks_of listed →
  f ∈ file <$> listed ∧ ids = LCLid <$> filter (λ i, file i = f) listed.
Proof.
  unfold blocks_of. rewrite list_elem_of_fmap. intros (f' & [= -> ->] & Hf).
  by apply elem_of_sorted_unique in Hf.
Qed.

Lemma elem_of_block_frame (listed : list InfoRow) start_date end_date
    (ids : list string) (df_block : list BlockRow) (frame : DataFrame) (r : ConsumptionRecord) :
  block_frame listed start_date end_date ids df_block = Some frame →
  r ∈ frame →
  date_ok start_date end_date r
  ∧ household_id r ∈ ids
  ∧ ∃ i b, i ∈ listed ∧ LCLid i = household_id r ∧ cluster i = cluster_id r
           ∧ b ∈ df_block
           ∧ block_household_id b = household_id r
           ∧ block_tstp b = Some (timestamp r)
           ∧ block_energy b = Some (consumption_kwh r).
Proof.
  unfold block_frame. cbv zeta.
  destruct (filter _ df_block) as [|b0 kept] eqn:Hkept; [done|].
  rewrite <- Hkept. clear b0 kept Hkept. intros [= <-] Hr.
  assert (date_ok start_date end_date r
          ∧ r ∈ mjoin ((λ '(h, t, v), merge_cluster listed h t v)
                       <$> omap (λ b, t ← block_tstp b; v ← block_energy b;
                                      Some (block_household_id b, t, v))
                             (filter (λ b, isin ids (block_household_id b)) df_block)))
    as [Hdate Hin].
  { unfold date_ok.
    destruct end_date as [e|], start_date as [s|];
      repeat (apply list_elem_of_filter in Hr as [? Hr]); done. }
  split; [done|].
  apply list_elem_of_join in Hin as (l & Hrl & Hl).
  apply list_elem_of_fmap in Hl as ([[h t] v] & -> & Hb).
  apply list_elem_of_omap in Hb as (b & Hb & Hsome).
  apply list_elem_of_filter in Hb as [Hids Hb]. apply isin_Is_true in Hids.
  destruct (block_tstp b) as [t'|] eqn:Ht; [|done].
  destruct (block_energy b) as [v'|] eqn:Hv; [|done].
  injection Hsome as <- <- <-.
  unfold merge_cluster in Hrl. apply list_elem_of_fmap in Hrl as (i & -> & Hi).
  apply list_elem_of_filter in Hi as [Hh Hi]. simpl.
  split; [done|]. exists i, b. by repeat split.
Qed.

Section LclRecords.
Context `{Sampler}.

Lemma sample_elem_of {A} (l out : list A) (n : Z) (x : A) :
  sample l n = Ok out → x ∈ out → x ∈ l.
Proof.
  unfold sample. destruct (n <? 0); [done|]. destruct (_ <? n); [done|].
  intros [= <-]. apply elem_of_rows_at.
Qed.

Lemma select_households_listed (info : InfoTable) info_csv cluster_col n clusters
    (listed : list InfoRow) (i : InfoRow) :
  select_households info info_csv cluster_col n clusters = Ok listed →
  i ∈ listed →
  i ∈ info_rows info
  ∧ match clusters with
    | Some (c :: cs) => cluster i ∈ c :: cs
    | _ => True
    end.
Proof.
  unfold select_households. cbv zeta. destruct (decide _); [done|].
  set (kept := match clusters with Some (c :: cs) => _ | _ => _ end).
  assert (∀ j, j ∈ kept →
               j ∈ info_rows info
               ∧ match clusters with
                 | Some (c :: cs) => cluster j ∈ c :: cs
                 | _ => True
                 end) as Hkept.
  { intros j. unfold kept. destruct clusters as [[|c cs]|]; try done.
    rewrite list_elem_of_filter, isin_Is_true. tauto. }
  destruct kept as [|i0 kept'] eqn:Hk; [done|]. rewrite <- Hk in *.
  intros Hsel Hi. apply Hkept.
  destruct n as [k|]; [|by injection Hsel as <-].
  destruct (k =? 0); [by injection Hsel as <-|].
  by eapply sample_elem_of.
Qed.

(** X15: the multi-block adapter returns nothing but what it read: every
    record comes from a row of an existing block file of a listed
    household, with the timestamp and the consumption of that row and the
    cluster that the household list gives the household; it passes the
    cluster allow-list and lies within the date bounds of the call. *)
Theorem lcl_records_are_read_and_filtered
    (info_csv : string) (info : InfoTable) (blocks_dir : string)
    (disk : gmap string (list BlockRow)) (cluster_col : string)
    (n : option Z) (clusters : option (list string)) (start_date end_date : option Z)
    (out : list event) (df : DataFrame) :
  load_lcl_dataset info_csv info blocks_dir disk cluster_col n clusters
    start_date end_date = (out, Ok df) →
  Forall (λ r, record_of_block disk blocks_dir (info_rows info) r
               ∧ cluster_ok clusters r
               ∧ date_ok start_date end_date r) df.
Proof.
  intros Hload.
  destruct (select_households info info_csv cluster_col n clusters) as [listed|e] eqn:Hsel;
    [|by unfold load_lcl_dataset in Hload; rewrite Hsel in Hload].
  rewrite (load_lcl_dataset_spec _ _ _ _ _ _ _ _ _ listed Hsel) in Hload.
  injection Hload as _ Hframes.
  set (frames := omap (frame_of_block disk blocks_dir listed start_date end_date)
                   (blocks_of listed)) in *.
  assert (df = mjoin frames) as -> by (destruct frames; [done|by injection Hframes]).
  clear Hframes.
  assert (∀ r, r ∈ mjoin frames →
               record_of_block disk blocks_dir (info_rows info) r
               ∧ cluster_ok clusters r ∧ date_ok start_date end_date r) as Hall.
  { intros r Hr.
    apply list_elem_of_join in Hr as (frame & Hr & Hframe).
    apply list_elem_of_omap in Hframe as ([f ids] & Hb & Hfr).
    unfold frame_of_block in Hfr. cbn [fst snd] in Hfr.
    destruct (disk !! block_path blocks_dir f) as [df_block|] eqn:Hd; [|done].
    cbn [mbind option_bind] in Hfr.
    destruct (elem_of_blocks_of _ _ _ Hb) as [_ ->].
    destruct (elem_of_block_frame _ _ _ _ _ _ _ Hfr Hr)
      as (Hdate & Hids & i & b & Hi & Hh & Hc & Hbin & Hbh & Ht & Hv).
    apply list_elem_of_fmap in Hids as (i' & Hh' & Hi').
    apply list_elem_of_filter in Hi' as [Hf' Hi'].
    destruct (select_households_listed _ _ _ _ _ _ _ Hsel Hi) as [Hinfo Hcl].
    destruct (select_households_listed _ _ _ _ _ _ _ Hsel Hi') as [Hinfo' _].
    split; [|split; [|done]].
    - exists i, i', df_block, b. rewrite Hf'. by repeat split.
    - unfold cluster_ok. rewrite <- Hc. by destruct clusters as [[|c cs]|]. }
  by apply Forall_forall.
Qed.

End LclRecords.

Lemma omap_ext_in {A B} (f g : A → option B) (l : list A) :
  (∀ x, x ∈ l → f x = g x) → omap f l = omap g l.
Proof.
  induction l as [|a l IH]; intros Hfg; [done|].
  rewrite !omap_cons, (Hfg a) by (by left).
  rewrite IH; [done|]. intros x Hx. apply Hfg. by right.
Qed.

Section BlocksRead.
Context `{Sampler}.

(** X16: the adapter reads the block files of the selected households and
    no other: two disks that agree on the block file of every household
    left by the cluster filter and the sampling give the same warnings and
    the same records. *)
Theorem only_selected_blocks_are_read
    (info_csv : string) (info : InfoTable) (blocks_dir : string)
    (disk disk' : gmap string (list BlockRow)) (cluster_col : string)
    (n : option Z) (clusters : option (list string)) (start_date end_date : option Z)
    (listed : list InfoRow) :
  select_households info info_csv cluster_col n clusters = Ok listed →
  (∀ i, i ∈ listed →
        disk !! block_path blocks_dir (file i) = disk' !! block_path blocks_dir (file i)) →
  load_lcl_dataset info_csv info blocks_dir disk cluster_col n clusters
    start_date end_date
  = load_lcl_dataset info_csv info blocks_dir disk' cluster_col n clusters
      start_date end_date.
Proof.
  intros Hsel Hagree.
  rewrite !(load_lcl_dataset_spec _ _ _ _ _ _ _ _ _ listed Hsel).
  assert (∀ b, b ∈ blocks_of listed →
               disk !! block_path blocks_dir b.1 = disk' !! block_path blocks_dir b.1)
    as Hblocks.
  { intros [f ids] Hb. destruct (elem_of_blocks_of _ _ _ Hb) as [Hf _].
    apply list_elem_of_fmap in Hf as (i & -> & Hi). by apply Hagree. }
  f_equal.
  - f_equal. apply filter_iff_in. intros b Hb. by rewrite (Hblocks b Hb).
  - rewrite (omap_ext_in (frame_of_block disk blocks_dir listed start_date end_date)
               (frame_of_block disk' blocks_dir listed start_date end_date)); [done|].
    intros b Hb. unfold frame_of_block. by rewrite (Hblocks b Hb).
Qed.

End BlocksRead.

(* ------------------------------------------------------------------ *)
(** ** The cluster argument *)

Lemma split_nonempty (sep : ascii) (s : string) : split sep s ≠ [].
Proof.
  destruct s as [|c s]; [done|]. simpl.
  destruct (decide (c = sep)); [done|]. by destruct (split sep s).
Qed.

Lemma join_cons_char (sep : string) (c : ascii) (x : string) (xs : list string) :
  join sep (String c x :: xs) = String c (join sep (x :: xs)).
Proof. by destruct xs. Qed.

Lemma join_split (sep : ascii) (s : string) :
  join (String sep EmptyString) (split sep s) = s.
Proof.
  induction s as [|c s IH]; [done|]. cbn [split].
  destruct (decide (c = sep)) as [->|Hne].
  - pose proof (split_nonempty sep s) as Hne.
    destruct (split sep s) as [|x xs] eqn:Hs; [done|].
    transitivity (String sep (join (String sep EmptyString) (x :: xs)));
      [reflexivity|by rewrite IH].
  - pose proof (split_nonempty sep s) as Hne'.
    destruct (split sep s) as [|x xs] eqn:Hs; [done|].
    by rewrite join_cons_char, IH.
Qed.

Lemma split_parts (sep : ascii) (s : string) :
  Forall (λ part, contains sep part = false) (split sep s)
  ∧ length (split sep s) = S (count_char sep s).
Proof.
  induction s as [|c s [IHall IHlen]]; [by repeat constructor|]. cbn [split count_char].
  destruct (decide (c = sep)) as [->|Hne].
  - split; [by constructor|]. simpl. by rewrite IHlen.
  - pose proof (split_nonempty sep s) as Hne'.
    destruct (split sep s) as [|x xs] eqn:Hs; [done|].
    apply Forall_cons in IHall as [Hx Hxs]. split; [|exact IHlen].
    constructor; [|exact Hxs]. simpl. by rewrite bool_decide_eq_false_2.
Qed.

(** X17: the cluster argument is cut at every comma and nowhere else: an
    absent or empty argument gives no cluster list; any other argument gives
    a list with one part more than the argument has commas, no part holds a
    comma, and the parts joined by commas are the argument again, blanks
    and empty parts included. *)
Theorem parse_clusters_round_trip (s : string) :
  parse_clusters None = None
  ∧ parse_clusters (Some EmptyString) = None
  ∧ (s ≠ EmptyString →
     ∃ parts, parse_clusters (Some s) = Some parts
              ∧ join "," parts = s
              ∧ length parts = S (count_char "," s)
              ∧ Forall (λ part, contains "," part = false) parts).
Proof.
  split; [done|]. split; [done|]. intros Hs.
  destruct s as [|c s]; [done|]. eexists. split; [reflexivity|].
  split; [apply join_split|]. apply and_comm, split_parts.
Qed.

(* ------------------------------------------------------------------ *)
(** ** The failures of a run *)

Lemma load_data_raises (path : string) (df : RawTable) (e : exn) :
  load_data path df = Raise e →
  ∃ table missing, e = ValueError_missing_columns table missing ∧ missing ≠ ∅.
Proof.
  unfold load_data. cbv zeta. destruct (decide _) as [Hne|]; [|done].
  intros [= <-]. by eexists _, _.
Qed.

Section RunFailures.
Context `{Sampler}.

Lemma filter_data_raises (df : DataFrame) n clusters start_date end_date (e : exn) :
  filter_data df n clusters start_date end_date = Raise e →
  e = ValueError_negative_sample.
Proof.
  intros He.
  destruct (filter_data_cases df n clusters start_date end_date)
    as [[_ Hres]|[(k & _ & _ & Hres)|(k & sampled & _ & _ & _ & _ & _ & Hres)]];
    rewrite Hres in He; by simplify_eq.
Qed.

Lemma sample_min_raises {A} (l : list A) (n : Z) (e : exn) :
  sample l (Z.min n (len l)) = Raise e → e = ValueError_negative_sample.
Proof.
  unfold sample, len. destruct (_ <? 0); [by intros [= <-]|].
  destruct (Z.ltb_spec (Z.of_nat (length l)) (Z.min n (Z.of_nat (length l)))); [lia|done].
Qed.

Lemma select_households_raises (info : InfoTable) info_csv cluster_col n clusters (e : exn) :
  select_households info info_csv cluster_col n clusters = Raise e →
  (∃ table missing, e = ValueError_missing_columns table missing ∧ missing ≠ ∅)
  ∨ e = ValueError_negative_sample
  ∨ e = SystemExit "No households remain after filtering by cluster.".
Proof.
  unfold select_households. cbv zeta.
  destruct (decide _) as [Hne|]; [intros [= <-]; left; by eexists _, _|].
  destruct (match clusters with Some (c :: cs) => _ | _ => _ end) as [|i listed];
    [intros [= <-]; by right; right|].
  destruct n as [k|]; [|done]. destruct (k =? 0); [done|].
  intros He. right. left. by eapply sample_min_raises.
Qed.

(** The failures of the first half of [main], with the one that tells a
    run without input apart. *)
Lemma load_raises (args : Args.Namespace) (w : World) (e : exn) :
  (load args w).2 = Raise e →
  (e = SystemExit "Provide --consumption-csv or LCL dataset args."
   ∧ (Args.lcl_info_csv args = None ∨ Args.lcl_blocks_dir args = None)
   ∧ Args.consumption_csv args = None)
  ∨ ((∃ path, e = FileNotFoundError path)
     ∨ (∃ table missing, e = ValueError_missing_columns table missing ∧ missing ≠ ∅)
     ∨ e = ValueError_negative_sample
     ∨ e = SystemExit "No households remain after filtering by cluster."
     ∨ e = SystemExit "No data loaded from blocks; check paths and filters.").
Proof.
  unfold load.
  assert (∀ (A : Type) (files : gmap string A) path e',
            read_csv files path = Raise e' → ∃ p, e' = FileNotFoundError p) as Hread.
  { intros A files path e'. unfold read_csv. destruct (files !! path); [done|].
    intros [= <-]. by eexists. }
  assert (∀ path : string,
            (([] : list event,
              raw ← read_csv (csv_files w) path;
              df ← load_data path raw;
              filter_data df (Args.sample_households args)
                (parse_clusters (Args.clusters args))
                (Args.start_date args) (Args.end_date args))).2 = Raise e →
            (∃ p, e = FileNotFoundError p)
            ∨ (∃ table missing, e = ValueError_missing_columns table missing ∧ missing ≠ ∅)
            ∨ e = ValueError_negative_sample) as Hgeneric.
  { intros path. cbn [snd].
    destruct (read_csv (csv_files w) path) as [raw|e1] eqn:Hr;
      [|intros [= <-]; left; by eapply Hread].
    cbn [mbind result_bind bind].
    destruct (load_data path raw) as [df|e2] eqn:Hl;
      [|intros [= <-]; right; left; by eapply load_data_raises].
    cbn [mbind result_bind bind]. intros He. right. right. by eapply filter_data_raises. }
  assert (∀ info_csv blocks_dir,
            (match read_csv (info_files w) info_csv with
             | Raise e1 => ([], Raise e1)
             | Ok info =>
                 load_lcl_dataset info_csv info blocks_dir (block_files w)
                   (Args.lcl_cluster_col args) (Args.sample_households args)
                   (parse_clusters (Args.clusters args))
                   (Args.start_date args) (Args.end_date args)
             end).2 = Raise e →
            (∃ path, e = FileNotFoundError path)
            ∨ (∃ table missing, e = ValueError_missing_columns table missing ∧ missing ≠ ∅)
            ∨ e = ValueError_negative_sample
            ∨ e = SystemExit "No households remain after filtering by cluster."
            ∨ e = SystemExit "No data loaded from blocks; check paths and filters.") as Hlcl.
  { intros info_csv blocks_dir.
    destruct (read_csv (info_files w) info_csv) as [info|e1] eqn:Hr;
      [|intros [= <-]; left; by eapply Hread].
    unfold load_lcl_dataset.
    destruct (select_households _ _ _ _ _) as [listed|e2] eqn:Hsel.
    - destruct (load_blocks _ _ _ _ _ _) as [out [|f frames]]; [|done].
      intros [= <-]. by do 4 right.
    - intros [= <-]. right.
      destruct (select_households_raises _ _ _ _ _ _ Hsel) as [?|[?|?]]; auto. }
  destruct (Args.lcl_info_csv args) as [info_csv|] eqn:Hinfo,
           (Args.lcl_blocks_dir args) as [blocks_dir|] eqn:Hdir;
    [intros He; right; by eapply Hlcl|..];
    (destruct (Args.consumption_csv args) as [path|] eqn:Hcsv;
     [intros He; right;
      destruct (Hgeneric path He) as [?|[?|?]]; auto
     |intros [= <-]; left; auto]).
Qed.

Lemma plot_profiles_raises (profiles : ProfileTable) (out_dir : string) (e : exn) :
  (plot_profiles profiles out_dir).2 = Raise e →
  e = KeyError "weekday_kwh" ∨ e = KeyError "weekend_kwh".
Proof.
  unfold plot_profiles. rewrite plot_clusters_spec.
  destruct (sorted_unique _ _); [done|].
  destruct (decide _); [|intros [= <-]; by left].
  destruct (decide _); [done|intros [= <-]; by right].
Qed.

Lemma main_raises (args : Args.Namespace) (w : World) (e : exn) :
  (main args w).2 = Raise e →
  (load args w).2 = Raise e
  ∨ e = SystemExit "No data after filtering; check inputs."
  ∨ e = KeyError "weekday_kwh" ∨ e = KeyError "weekend_kwh".
Proof.
  rewrite main_of_load. destruct (load args w) as [out [[|r df]|e']]; cbn [snd].
  - intros [= <-]. right. by left.
  - cbv zeta.
    destruct (plot_profiles _ _) as [plots [[]|e1]] eqn:Hp; [done|].
    intros [= <-]. right. right.
    apply (plot_profiles_raises (compute_profiles (add_time_features (r :: df)))
             (Args.output_dir args)).
    by rewrite Hp.
  - intros [= <-]. by left.
Qed.


(** X19: a run ends with "Provide --consumption-csv or LCL dataset args."
    exactly when [--consumption-csv] is absent and the two arguments of the
    multi-block dataset are not both given; with both of them the generic
    input is not looked at. *)
Theorem configuration_error_iff (args : Args.Namespace) (w : World) :
  (main args w).2 = Raise (SystemExit "Provide --consumption-csv or LCL dataset args.")
  ↔ (Args.lcl_info_csv args = None ∨ Args.lcl_blocks_dir args = None)
    ∧ Args.consumption_csv args = None.
Proof.
  split.
  - intros He. destruct (main_raises args w _ He) as [Hl|[?|[?|?]]]; [|done..].
    destruct (load_raises args w _ Hl) as [(_ & ?)|[[? ?]|[(? & ? & ? & _)|[?|[?|?]]]]];
      done.
  - intros [Hlcl Hcsv]. rewrite main_of_load. unfold load. rewrite Hcsv.
    by destruct Hlcl as [-> | ->], (Args.lcl_info_csv args), (Args.lcl_blocks_dir args).
Qed.

End RunFailures.

(* ------------------------------------------------------------------ *)
(** ** The further properties at work *)

Ltac here_or_further :=
  vm_compute; repeat first [apply list_elem_of_here | apply list_elem_of_further].

Lemma filter_data_only_removes_witness :
  cluster_A_records `sublist_of` three_households
  ∧ Forall (λ r, cluster_ok (Some ["A"]) r ∧ date_ok None None r) cluster_A_records.
Proof.
  apply (filter_data_only_removes (H:=prefix_sampler) three_households cluster_A_records
           (Some 2) (Some ["A"]) None None).
  vm_compute. reflexivity.
Defined.

Lemma filter_data_keeps_whole_households_witness :
  mkRecord "H1" "A" (Time.datetime 2013 1 5 1 0) 3 ∈ cluster_A_records.
Proof.
  apply (filter_data_keeps_whole_households (H:=prefix_sampler) three_households
           cluster_A_records (Some 2) (Some ["A"]) None None
           (mkRecord "H1" "A" (Time.datetime 2013 1 4 0 30) 1)
           (mkRecord "H1" "A" (Time.datetime 2013 1 5 1 0) 3)).
  - vm_compute. reflexivity.
  - here_or_further.
  - here_or_further.
  - split; [here_or_further|by vm_compute].
  - reflexivity.
Defined.

Lemma filter_data_idempotent_witness :
  filter_data (H:=prefix_sampler) cluster_A_records (Some 2) (Some ["A"]) None None
  = Ok cluster_A_records.
Proof.
  apply (filter_data_idempotent (H:=prefix_sampler) three_households cluster_A_records
           (Some 2) (Some ["A"]) None None).
  vm_compute. reflexivity.
Defined.

Lemma negative_sample_size_raises_witness :
  filter_data (H:=prefix_sampler) three_households (Some (-1)) None None None
  = Raise ValueError_negative_sample
  ∧ load_lcl_dataset (H:=prefix_sampler) "info.csv" lcl_info "blocks"
      (block_files one_block_world) "Acorn_grouped" (Some (-1)) None None None
    = ([], Raise ValueError_negative_sample).
Proof.
  destruct (negative_sample_size_raises (H:=prefix_sampler) three_households (-1)
              None None None lcl_info "info.csv" "blocks" "Acorn_grouped"
              (block_files one_block_world)) as [Hfilter Hlcl].
  - lia.
  - split; [exact Hfilter|]. apply Hlcl.
    + vm_compute. reflexivity.
    + discriminate.
Defined.


Example generic_run :
  main (H:=prefix_sampler) generic_args generic_world
  = ([ SaveProfiles "outputs/cluster_profiles"
         (mkPivot ["weekday_kwh"; "weekend_kwh"]
            [ mkPivotRow "A" 1 [Some (3 # 2); None];
              mkPivotRow "B" 1 [None; Some 3%Q] ]);
       SavePlot "outputs/cluster_profiles" "A";
       SavePlot "outputs/cluster_profiles" "B";
       Print "Done." ],
     Ok ()).
Proof. vm_compute. reflexivity. Qed.


Lemma sample_size_is_clamped_witness :
  filter_data (H:=prefix_sampler) three_households (Some 5) (Some ["A"]) None None
  = Ok (filter (λ r, cluster_ok (Some ["A"]) r ∧ date_ok None None r) three_households).
Proof.
  apply (sample_size_is_clamped (H:=prefix_sampler) three_households 5 (Some ["A"])
           None None).
  - lia.
  - vm_compute. discriminate.
Defined.

Lemma lcl_records_are_read_and_filtered_witness :
  Forall (λ r, record_of_block (block_files one_block_world) "blocks" (info_rows lcl_info) r
               ∧ cluster_ok (Some ["A"]) r
               ∧ date_ok (Some (Time.date 2013 1 1)) (Some (Time.date 2013 1 1)) r)
    [mkRecord "H1" "A" (Time.datetime 2013 1 1 0 0) 1].
Proof.
  apply (lcl_records_are_read_and_filtered (H:=prefix_sampler) "info.csv" lcl_info "blocks"
           (block_files one_block_world) "Acorn_grouped" None (Some ["A"])
           (Some (Time.date 2013 1 1)) (Some (Time.date 2013 1 1)) []).
  vm_compute. reflexivity.
Defined.

Lemma only_selected_blocks_are_read_witness :
  load_lcl_dataset (H:=prefix_sampler) "info.csv" lcl_info "blocks"
    (block_files one_block_world) "Acorn_grouped" None None None None
  = load_lcl_dataset (H:=prefix_sampler) "info.csv" lcl_info "blocks"
      one_more_block "Acorn_grouped" None None None None.
Proof.
  apply (only_selected_blocks_are_read (H:=prefix_sampler) "info.csv" lcl_info "blocks"
           (block_files one_block_world) one_more_block "Acorn_grouped" None None
           None None (info_rows lcl_info)).
  - vm_compute. reflexivity.
  - intros i Hi. apply elem_of_cons in Hi as [->|Hi];
      [|apply list_elem_of_singleton in Hi as ->]; vm_compute; reflexivity.
Defined.


(* ------------------------------------------------------------------ *)
(** ** Rows kept and rows joined *)

Lemma dropna_raw_Some (raw : RawRow) (r : ConsumptionRecord) :
  dropna_raw raw = Some r ↔ raw = raw_of r.
Proof.
  unfold dropna_raw, raw_of. destruct raw as [[h|] [c|] [t|] [v|]]; simpl;
    (split; [intros [= <-]|intros [= -> -> -> ->]]); try done.
  by destruct r.
Qed.

Lemma dropna_raw_complete (raw : RawRow) : is_Some (dropna_raw raw) ↔ complete raw.
Proof.
  unfold dropna_raw, complete. destruct raw as [[h|] [c|] [t|] [v|]]; simpl;
    rewrite ?is_Some_alt; naive_solver.
Qed.

Lemma length_omap_le {A B} (f : A → option B) (l : list A) :
  (length (omap f l) ≤ length l)%nat.
Proof.
  induction l as [|a l IH]; [done|]. rewrite omap_cons.
  destruct (f a); simpl; lia.
Qed.

Lemma length_omap_all {A B} (f : A → option B) (l : list A) :
  Forall (λ x, is_Some (f x)) l → length (omap f l) = length l.
Proof.
  induction 1 as [|a l [y Hy] _ IH]; [done|]. rewrite omap_cons, Hy. simpl. by rewrite IH.
Qed.

(** X20: with the four columns present, [load_data] never fails on a row:
    it returns the records of the rows that have their four cells, each
    with the cells of its row, and drops every other row; a table whose
    rows are all complete loses none. *)
Theorem load_data_keeps_complete_rows (path : string) (df : RawTable) :
  (∀ c, c ∈ required_columns → c ∈ raw_columns df) →
  ∃ out, load_data path df = Ok out
         ∧ (∀ r, r ∈ out ↔ raw_of r ∈ raw_rows df)
         ∧ (length out ≤ length (raw_rows df))%nat
         ∧ (Forall complete (raw_rows df) → length out = length (raw_rows df)).
Proof.
  intros Hcols.
  destruct (load_data_cases path df) as [[(c & Hc & Hn) _]|[_ Hload]];
    [by destruct Hn; apply Hcols|].
  eexists. split; [exact Hload|]. split; [|split].
  - intros r. rewrite list_elem_of_omap. split.
    + intros (raw & Hraw & Hr). apply dropna_raw_Some in Hr. by subst.
    + intros Hr. exists (raw_of r). split; [done|]. by apply dropna_raw_Some.
  - apply length_omap_le.
  - intros Hall. apply length_omap_all. eapply Forall_impl; [exact Hall|].
    intros raw. apply dropna_raw_complete.
Qed.

Lemma load_data_keeps_complete_rows_witness :
  ∃ out, load_data "data.csv"
           (mkRawTable ["household_id"; "cluster_id"; "timestamp"; "consumption_kwh"]
              [ mkRaw (Some "H1") (Some "A") (Some (Time.datetime 2013 1 4 0 30)) (Some 1%Q);
                mkRaw (Some "H1") (Some "A") None (Some 3%Q) ]) = Ok out
         ∧ (∀ r, r ∈ out ↔
                 raw_of r ∈
                   [ mkRaw (Some "H1") (Some "A") (Some (Time.datetime 2013 1 4 0 30))
                       (Some 1%Q);
                     mkRaw (Some "H1") (Some "A") None (Some 3%Q) ])
         ∧ (length out ≤ 2)%nat
         ∧ (Forall complete
              [ mkRaw (Some "H1") (Some "A") (Some (Time.datetime 2013 1 4 0 30)) (Some 1%Q);
                mkRaw (Some "H1") (Some "A") None (Some 3%Q) ] →
            length out = 2%nat).
Proof.
  apply (load_data_keeps_complete_rows "data.csv"
           (mkRawTable ["household_id"; "cluster_id"; "timestamp"; "consumption_kwh"]
              [ mkRaw (Some "H1") (Some "A") (Some (Time.datetime 2013 1 4 0 30)) (Some 1%Q);
                mkRaw (Some "H1") (Some "A") None (Some 3%Q) ])).
  intros c Hc. exact Hc.
Defined.

Lemma length_filter_key {A K} `{EqDecision K} (f : A → K) (l : list A) (k : K) :
  NoDup (f <$> l) → (length (filter (λ y, f y = k) l) ≤ 1)%nat.
Proof.
  intros Hnd. destruct (decide (k ∈ f <$> l)) as [Hin|Hout].
  - apply list_elem_of_fmap in Hin as (x & -> & Hx).
    by rewrite (filter_key_unique f l x Hnd Hx).
  - rewrite filter_key_absent by done. simpl. lia.
Qed.

Lemma length_join_bounded {A B} (f : A → list B) (l : list A) :
  (∀ x, length (f x) ≤ 1)%nat → (length (mjoin (f <$> l)) ≤ length l)%nat.
Proof.
  intros Hf. induction l as [|a l IH]; [done|].
  csimpl. rewrite length_app. specialize (Hf a). lia.
Qed.

Lemma length_block_frame (listed : list InfoRow) start_date end_date
    (ids : list string) (df_block : list BlockRow) (frame : DataFrame) :
  NoDup (LCLid <$> listed) →
  block_frame listed start_date end_date ids df_block = Some frame →
  (length frame ≤ length df_block)%nat.
Proof.
  intros Hnd. unfold block_frame. cbv zeta.
  destruct (filter _ df_block) as [|b0 kept] eqn:Hkept; [done|].
  rewrite <- Hkept. clear b0 kept Hkept. intros [= <-].
  etransitivity; [|apply (length_filter (λ b, isin ids (block_household_id b)))].
  etransitivity;
    [|apply (length_omap_le (λ b, t ← block_tstp b; v ← block_energy b;
                                  Some (block_household_id b, t, v)))].
  etransitivity;
    [|apply (length_join_bounded (λ '(h, t, v), merge_cluster listed h t v))].
  - destruct end_date as [e|], start_date as [s|];
      repeat (etransitivity; [apply length_filter|]); done.
  - intros [[h t] v]. unfold merge_cluster. rewrite length_fmap.
    by apply length_filter_key.
Qed.

Lemma length_frames (disk : gmap string (list BlockRow)) (blocks_dir : string)
    (listed : list InfoRow) start_date end_date (blocks : list (string * list string)) :
  NoDup (LCLid <$> listed) →
  (length (mjoin (omap (frame_of_block disk blocks_dir listed start_date end_date) blocks))
   ≤ sum_list_with (λ b, from_option length 0%nat (disk !! block_path blocks_dir b.1))
       blocks)%nat.
Proof.
  intros Hnd. induction blocks as [|[f ids] blocks IH]; [done|].
  rewrite omap_cons. cbn [sum_list_with fst]. unfold frame_of_block at 1. cbn [fst snd].
  destruct (disk !! block_path blocks_dir f) as [df_block|]; cbn [mbind option_bind];
    [|simpl; lia].
  destruct (block_frame listed start_date end_date ids df_block) as [frame|] eqn:Hf;
    [|simpl; lia].
  csimpl. rewrite length_app.
  pose proof (length_block_frame _ _ _ _ _ _ Hnd Hf). lia.
Qed.

Section JoinedRows.
Context `{Sampler}.

Lemma select_households_NoDup (info : InfoTable) info_csv cluster_col n clusters
    (listed : list InfoRow) :
  select_households info info_csv cluster_col n clusters = Ok listed →
  NoDup (LCLid <$> info_rows info) →
  NoDup (LCLid <$> listed).
Proof.
  unfold select_households. cbv zeta. destruct (decide _); [done|].
  set (kept := match clusters with Some (c :: cs) => _ | _ => _ end).
  intros Hsel Hnd.
  assert (NoDup (LCLid <$> kept)) as Hkept.
  { unfold kept. destruct clusters as [[|c cs]|]; try done.
    apply (sublist_NoDup _ (LCLid <$> info_rows info)); [exact Hnd|].
    apply fmap_sublist. apply sublist_filter. }
  destruct kept as [|i0 kept'] eqn:Hk; [done|]. rewrite <- Hk in *.
  destruct n as [k|]; [|by injection Hsel as <-].
  destruct (k =? 0); [by injection Hsel as <-|].
  unfold sample in Hsel. destruct (_ <? 0); [done|]. destruct (_ <? _); [done|].
  injection Hsel as <-. rewrite <- rows_at_fmap.
  apply NoDup_rows_at; [exact Hkept|apply choice_NoDup].
Qed.

(** X21: when the household list names each household once, the join with
    the cluster assignment multiplies no row: the adapter returns at most
    as many records as the block files it read have rows. *)
Theorem join_multiplies_no_row
    (info_csv : string) (info : InfoTable) (blocks_dir : string)
    (disk : gmap string (list BlockRow)) (cluster_col : string)
    (n : option Z) (clusters : option (list string)) (start_date end_date : option Z)
    (listed : list InfoRow) (out : list event) (df : DataFrame) :
  NoDup (LCLid <$> info_rows info) →
  select_households info info_csv cluster_col n clusters = Ok listed →
  load_lcl_dataset info_csv info blocks_dir disk cluster_col n clusters
    start_date end_date = (out, Ok df) →
  (length df ≤ rows_read disk blocks_dir listed)%nat.
Proof.
  intros Hnd Hsel Hload.
  rewrite (load_lcl_dataset_spec _ _ _ _ _ _ _ _ _ listed Hsel) in Hload.
  injection Hload as _ Hframes.
  set (frames := omap (frame_of_block disk blocks_dir listed start_date end_date)
                   (blocks_of listed)) in *.
  assert (df = mjoin frames) as -> by (destruct frames; [done|by injection Hframes]).
  apply length_frames. by eapply select_households_NoDup.
Qed.

End JoinedRows.

(** A household listed twice has each of its rows twice in the result. *)
Example listed_twice_doubles_rows :
  load_lcl_dataset (H:=prefix_sampler) "info.csv" listed_twice_info "blocks"
    (block_files one_block_world) "Acorn_grouped" None None None None
  = ([], Ok [ mkRecord "H1" "A" (Time.datetime 2013 1 1 0 0) 1;
              mkRecord "H1" "A" (Time.datetime 2013 1 1 0 0) 1 ]).
Proof. vm_compute. reflexivity. Qed.

Lemma join_multiplies_no_row_witness :
  (length [mkRecord "H1" "A" (Time.datetime 2013 1 1 0 0) 1]
   ≤ rows_read (block_files one_block_world) "blocks" (info_rows lcl_info))%nat.
Proof.
  apply (join_multiplies_no_row (H:=prefix_sampler) "info.csv" lcl_info "blocks"
           (block_files one_block_world) "Acorn_grouped" None None None None
           (info_rows lcl_info)
           [Print "Warning: block file missing: blocks/block_1.csv"]).
  - apply (bool_decide_unpack _). vm_compute. exact I.
  - vm_compute. reflexivity.
  - vm_compute. reflexivity.
Defined.
